(** * project-groot: flood-incident reporting (script.js)

    A shallow embedding of the core of [src/script.js]: the geodesic helpers,
    the report store, the form state machine, the admin feed and the status
    poller.  JavaScript numbers are IEEE 754 binary64 values, so they are
    modelled by Rocq's primitive floats; [null] is [None]. *)

From Stdlib Require Import List ZArith Bool String Lia Floats Permutation
  Sorted DecimalString.
Import ListNotations.

Set Warnings "-inexact-float".

Local Open Scope float_scope.

(** ** JavaScript numbers *)

Module JsNum.

(** [x != x], the only way a binary64 value differs from itself. *)
Definition isNaN (x : float) : bool := negb (x =? x).

(** ToBoolean on a number: [0], [-0] and [NaN] are falsy. *)
Definition truthy (x : float) : bool := negb ((x =? 0) || isNaN x).

(** [v || d] where [v] is [null] or a number. *)
Definition orElse (v : option float) (d : float) : float :=
  match v with
  | Some x => if truthy x then x else d
  | None => d
  end.

End JsNum.

(** ** The host's Math object

    ECMA-262 leaves the precision of [Math.sin], [Math.cos] and [Math.atan2]
    to the implementation and fixes only boundary cases; the ones recorded
    here are those on NaN arguments.  [Math.sqrt] is the correctly rounded
    IEEE operation and [Math.PI] the double nearest to pi. *)

Record MathHost : Type := {
  sin : float -> float;
  cos : float -> float;
  atan2 : float -> float -> float;
  sin_nan : sin nan = nan;
  atan2_nan_l : forall x, atan2 nan x = nan
}.

Definition PI : float := 3.141592653589793.

(** ** GeoMath *)

Module Site.
Record t : Type := mk { name : string; lat : float; lng : float }.
End Site.

Definition evacuationSites : list Site.t :=
  [ Site.mk "Evacuation Site 1" 14.6 121.0;
    Site.mk "Evacuation Site 2" 14.65 121.05;
    Site.mk "Evacuation Site 3" 14.55 120.95 ].

Definition deg2rad (deg : float) : float := deg * (PI / 180).

Section GeoMath.

Variable M : MathHost.

Definition getDistance (lat1 lon1 lat2 lon2 : float) : float :=
  let R := 6371 in
  let dLat := deg2rad (lat2 - lat1) in
  let dLon := deg2rad (lon2 - lon1) in
  let a :=
    sin M (dLat / 2) * sin M (dLat / 2) +
    cos M (deg2rad lat1) * cos M (deg2rad lat2) *
    sin M (dLon / 2) * sin M (dLon / 2) in
  let c := 2 * atan2 M (sqrt a) (sqrt (1 - a)) in
  let d := R * c in
  d.

(** One iteration of the [forEach] body of [findNearestSite]; the pair is
    the two locals [(nearestSite, minDistance)]. *)
Definition scanSite (lat lng : float) (acc : option Site.t * float)
    (site : Site.t) : option Site.t * float :=
  let distance := getDistance lat lng (Site.lat site) (Site.lng site) in
  if distance <? snd acc then (Some site, distance) else acc.

(** [findNearestSite], with the module constant [evacuationSites] it scans
    taken as the first argument. *)
Definition findNearestSite (sites : list Site.t) (lat lng : float)
    : option Site.t :=
  fst (fold_left (scanSite lat lng) sites (None, infinity)).

End GeoMath.

(** ** Reports *)

(** The three literals [submitReport] assigns to [urgency]. *)
Inductive Urgency : Type := Critical | Moderate | Low.

Module Report.
Record t : Type := mk {
  id : Z;
  timestamp : string;
  lat : float;
  lng : float;
  accuracy : float;
  severity : string;
  urgency : Urgency;
  people : string;
  status : string;
  verificationType : string;
  hasPhoto : bool;
  sensorVerified : bool
}.

(** [report.status = s], the only assignment to a stored report. *)
Definition setStatus (s : string) (r : t) : t :=
  mk (id r) (timestamp r) (lat r) (lng r) (accuracy r) (severity r)
     (urgency r) (people r) s (verificationType r) (hasPhoto r)
     (sensorVerified r).
End Report.

(** ** Application state *)

(** The [appState] object. *)
Record AppState : Type := mkAppState {
  currentView : string;
  reports : list Report.t;
  currentUserLat : option float;
  currentUserLng : option float;
  currentUserAccuracy : option float
}.

(** What [renderAdminFeed] decides for one card; the markup around it is
    presentation. *)
Inductive ActionButton : Type :=
  | DispatchTeam (id : Z)   (* onclick = updateStatus(id, 'DISPATCHED') *)
  | TeamActive
  | NoButton.

Inductive Validation : Type :=
  | PhotoAttached | NoPhotoUploaded
  | SensorVerified | SensorSkipped
  | SmsRequested
  | NoValidation.

Record Card : Type := mkCard {
  cardReport : Report.t;
  isLocationVerified : bool;
  nearestSite : Site.t;
  actionButton : ActionButton;
  validationDisplay : Validation
}.

(** Callbacks the page has registered with the browser's timers. *)
Inductive Timer : Type :=
  | SensorTimeout                    (* setTimeout in runSensorCheck *)
  | StatusInterval (reportId : Z).   (* setInterval in startUserStatusListener *)

(** The browser side the handlers read and write: form inputs, the two
    rendered views, alerts, pending geolocation requests and timers. *)
Record Browser : Type := mkBrowser {
  peopleCount : string;              (* #people-count .value *)
  fileInputFiles : nat;              (* #file-input .files.length *)
  adminFeed : list Card;             (* #admin-feed *)
  dispatchedShown : list (nat * Z);  (* status view updates: (interval, report id) *)
  alerts : list string;
  geolocation : bool;                (* "geolocation" in navigator *)
  geoRequests : nat;                 (* getCurrentPosition calls not yet answered *)
  timers : list (nat * Timer);
  nextTimer : nat;
  stepDispatchedGray : bool          (* #step-dispatched has a .bg-gray-300 element *)
}.

(** [appState], the module-level variables and the browser. *)
Record State : Type := mkState {
  appState : AppState;
  selectedSeverityLevel : string;
  currentVerificationMode : string;
  sensorVerified : bool;
  manualMarker : option (float * float);   (* the marker's LatLng, null before the picker opens *)
  browser : Browser
}.

(** The page as loaded: empty inputs and views, no timers, and the grey
    marker of the "dispatched" step still in place. *)
Definition initialBrowser : Browser :=
  mkBrowser "" 0 [] [] [] true 0 [] 0 true.

Definition initialState : State :=
  mkState (mkAppState "user" [] None None None) "" "photo" false None
          initialBrowser.

(** *** Field updates *)

Definition setAppState (a : AppState) (st : State) : State :=
  mkState a (selectedSeverityLevel st) (currentVerificationMode st)
          (sensorVerified st) (manualMarker st) (browser st).

Definition setBrowser (b : Browser) (st : State) : State :=
  mkState (appState st) (selectedSeverityLevel st) (currentVerificationMode st)
          (sensorVerified st) (manualMarker st) b.

Definition setSelectedSeverityLevel (v : string) (st : State) : State :=
  mkState (appState st) v (currentVerificationMode st) (sensorVerified st)
          (manualMarker st) (browser st).

Definition setCurrentVerificationMode (v : string) (st : State) : State :=
  mkState (appState st) (selectedSeverityLevel st) v (sensorVerified st)
          (manualMarker st) (browser st).

Definition setSensorVerified (v : bool) (st : State) : State :=
  mkState (appState st) (selectedSeverityLevel st) (currentVerificationMode st)
          v (manualMarker st) (browser st).

Definition setManualMarker (v : option (float * float)) (st : State) : State :=
  mkState (appState st) (selectedSeverityLevel st) (currentVerificationMode st)
          (sensorVerified st) v (browser st).

Definition setCurrentView (v : string) (a : AppState) : AppState :=
  mkAppState v (reports a) (currentUserLat a) (currentUserLng a)
             (currentUserAccuracy a).

Definition setReports (rs : list Report.t) (a : AppState) : AppState :=
  mkAppState (currentView a) rs (currentUserLat a) (currentUserLng a)
             (currentUserAccuracy a).

Definition setLocation (lat lng acc : float) (a : AppState) : AppState :=
  mkAppState (currentView a) (reports a) (Some lat) (Some lng) (Some acc).

Definition setPeopleCount (v : string) (b : Browser) : Browser :=
  mkBrowser v (fileInputFiles b) (adminFeed b) (dispatchedShown b) (alerts b)
            (geolocation b) (geoRequests b) (timers b) (nextTimer b)
            (stepDispatchedGray b).

Definition setFileInputFiles (n : nat) (b : Browser) : Browser :=
  mkBrowser (peopleCount b) n (adminFeed b) (dispatchedShown b) (alerts b)
            (geolocation b) (geoRequests b) (timers b) (nextTimer b)
            (stepDispatchedGray b).

Definition setAdminFeed (f : list Card) (b : Browser) : Browser :=
  mkBrowser (peopleCount b) (fileInputFiles b) f (dispatchedShown b) (alerts b)
            (geolocation b) (geoRequests b) (timers b) (nextTimer b)
            (stepDispatchedGray b).

Definition setDispatchedShown (l : list (nat * Z)) (b : Browser) : Browser :=
  mkBrowser (peopleCount b) (fileInputFiles b) (adminFeed b) l (alerts b)
            (geolocation b) (geoRequests b) (timers b) (nextTimer b)
            (stepDispatchedGray b).

Definition pushAlert (msg : string) (b : Browser) : Browser :=
  mkBrowser (peopleCount b) (fileInputFiles b) (adminFeed b) (dispatchedShown b)
            (alerts b ++ [msg]) (geolocation b) (geoRequests b) (timers b)
            (nextTimer b)
            (stepDispatchedGray b).

Definition setGeoRequests (n : nat) (b : Browser) : Browser :=
  mkBrowser (peopleCount b) (fileInputFiles b) (adminFeed b) (dispatchedShown b)
            (alerts b) (geolocation b) n (timers b) (nextTimer b)
            (stepDispatchedGray b).

Definition setTimers (ts : list (nat * Timer)) (b : Browser) : Browser :=
  mkBrowser (peopleCount b) (fileInputFiles b) (adminFeed b) (dispatchedShown b)
            (alerts b) (geolocation b) (geoRequests b) ts (nextTimer b)
            (stepDispatchedGray b).

(** [setTimeout] / [setInterval]: registers the callback under a fresh id. *)
Definition addTimer (t : Timer) (b : Browser) : Browser :=
  mkBrowser (peopleCount b) (fileInputFiles b) (adminFeed b) (dispatchedShown b)
            (alerts b) (geolocation b) (geoRequests b)
            (timers b ++ [(nextTimer b, t)]) (S (nextTimer b))
            (stepDispatchedGray b).

Definition setStepDispatchedGray (v : bool) (b : Browser) : Browser :=
  mkBrowser (peopleCount b) (fileInputFiles b) (adminFeed b) (dispatchedShown b)
            (alerts b) (geolocation b) (geoRequests b) (timers b) (nextTimer b)
            v.

Definition dropTimer (n : nat) (ts : list (nat * Timer)) : list (nat * Timer) :=
  filter (fun p => negb (Nat.eqb (fst p) n)) ts.

(** [clearInterval], and the removal of a timeout that has run. *)
Definition clearTimer (n : nat) (b : Browser) : Browser :=
  setTimers (dropTimer n (timers b)) b.

(** ** Handlers as state transformers that may throw *)

Inductive JsError : Type := TypeError.

Inductive Completion (A : Type) : Type :=
  | Normal (a : A)
  | Throw (e : JsError).
Arguments Normal {A} a.
Arguments Throw {A} e.

(** A handler runs on the current state and ends normally or by throwing;
    what it wrote before throwing stays written. *)
Definition Js (A : Type) : Type := State -> Completion A * State.

Definition ret {A} (a : A) : Js A := fun st => (Normal a, st).

Definition bind {A B} (m : Js A) (k : A -> Js B) : Js B :=
  fun st =>
    match m st with
    | (Normal a, st') => k a st'
    | (Throw e, st') => (Throw e, st')
    end.

Definition throw {A} (e : JsError) : Js A := fun st => (Throw e, st).
Definition gets {A} (f : State -> A) : Js A := fun st => (Normal (f st), st).
Definition modify (f : State -> State) : Js unit := fun st => (Normal tt, f st).

Notation "x <- m ;; k" := (bind m (fun x => k))
  (at level 61, m at next level, right associativity).
Notation "m ;;; k" := (bind m (fun _ => k))
  (at level 61, right associativity).

Definition modifyApp (f : AppState -> AppState) : Js unit :=
  modify (fun st => setAppState (f (appState st)) st).

Definition modifyBrowser (f : Browser -> Browser) : Js unit :=
  modify (fun st => setBrowser (f (browser st)) st).

Definition alert (msg : string) : Js unit := modifyBrowser (pushAlert msg).

Fixpoint forEach {A} (f : A -> Js unit) (l : list A) : Js unit :=
  match l with
  | [] => ret tt
  | x :: l' => f x ;;; forEach f l'
  end.

(** [Array.prototype.find] with the predicate [r.id === id]. *)
Definition findReport (id : Z) (rs : list Report.t) : option Report.t :=
  find (fun r => Z.eqb (Report.id r) id) rs.

(** The effect of [report.status = newStatus] on the store: [find] returned
    the first report with this id, and that object is the one written. *)
Fixpoint writeStatus (id : Z) (newStatus : string) (rs : list Report.t)
    : list Report.t :=
  match rs with
  | [] => []
  | r :: rs' =>
      if Z.eqb (Report.id r) id then Report.setStatus newStatus r :: rs'
      else r :: writeStatus id newStatus rs'
  end.

(** *** Manual location picker *)

Definition openManualLocationPicker : Js unit :=
  a <- gets appState ;;
  let center := (JsNum.orElse (currentUserLat a) 12.8797,
                 JsNum.orElse (currentUserLng a) 121.774) in
  (* a new marker at [center], or the existing one moved there *)
  modify (setManualMarker (Some center)).

Definition confirmManualLocation : Js unit :=
  m <- gets manualMarker ;;
  match m with
  | None => throw TypeError            (* manualMarker.getLatLng() on null *)
  | Some (lat, lng) =>
      modifyApp (setLocation lat lng 0)   (* 0 indicates manual selection *)
  end.

(** *** User flow *)

Definition startReport : Js unit :=
  b <- gets browser ;;
  if geolocation b then
    modifyBrowser (setGeoRequests (S (geoRequests b)))
  else
    alert "Geolocation is not supported by this browser.".

(** The success callback passed to [getCurrentPosition]. *)
Definition onPosition (latitude longitude accuracy : float) : Js unit :=
  modifyApp (setLocation latitude longitude accuracy).

(** The error callback only rewrites two labels. *)
Definition onPositionError : Js unit := ret tt.

Definition selectSeverity (level : string) : Js unit :=
  modify (setSelectedSeverityLevel level).

Definition setVerificationMode (mode : string) : Js unit :=
  modify (setCurrentVerificationMode mode).

Definition runSensorCheck : Js unit :=
  modifyBrowser (addTimer SensorTimeout).

(** The callback of the 1500 ms timeout. *)
Definition onSensorTimeout : Js unit :=
  modify (setSensorVerified true).

(** [cancelReport] swaps two panels and touches nothing else. *)
Definition cancelReport : Js unit := ret tt.

Definition urgencyOf (level : string) : Urgency :=
  if String.eqb level "high" then Critical
  else if String.eqb level "med" then Moderate
  else Low.

Definition startUserStatusListener (reportId : Z) : Js unit :=
  modifyBrowser (addTimer (StatusInterval reportId)).

(** [now] and [time] are what [Date.now()] and [toLocaleTimeString()]
    return at the call. *)
Definition submitReport (now : Z) (time : string) : Js unit :=
  level <- gets selectedSeverityLevel ;;
  if String.eqb level "" then
    alert "Please select a water level severity."
  else
    st <- gets (fun st => st) ;;
    let urgency := urgencyOf level in
    let newReport :=
      Report.mk now time
        (JsNum.orElse (currentUserLat (appState st)) 14.5995)
        (JsNum.orElse (currentUserLng (appState st)) 120.9842)
        (JsNum.orElse (currentUserAccuracy (appState st)) 15)
        level urgency
        (peopleCount (browser st))
        "PENDING"
        (currentVerificationMode st)
        (Nat.ltb 0 (fileInputFiles (browser st)))
        (sensorVerified st) in
    modifyApp (fun a => setReports (reports a ++ [newReport]) a) ;;;
    startUserStatusListener (Report.id newReport).

(** The interval callback of [startUserStatusListener], for interval [n].
    With the report DISPATCHED it rewrites the status view (icon, title,
    text, the two steps), then looks up the element of class [bg-gray-300]
    under [#step-dispatched], recolours it and takes that class off it,
    shows the arrival message and clears the interval.  Once the class is
    off, [querySelector] returns [null] and reading [.classList] throws,
    before [clearInterval]. *)
Definition onStatusInterval (n : nat) (reportId : Z) : Js unit :=
  rs <- gets (fun st => reports (appState st)) ;;
  match findReport reportId rs with
  | Some report =>
      if String.eqb (Report.status report) "DISPATCHED" then
        modifyBrowser (fun b =>
          setDispatchedShown (dispatchedShown b ++ [(n, reportId)]) b) ;;;
        b <- gets browser ;;
        if stepDispatchedGray b then
          modifyBrowser (setStepDispatchedGray false) ;;;
          modifyBrowser (clearTimer n)
        else throw TypeError
      else ret tt
  | None => ret tt
  end.

(** *** Admin flow *)

Definition priority (u : Urgency) : Z :=
  match u with Critical => 3 | Moderate => 2 | Low => 1 end.

(** The comparator passed to [sort] in [renderAdminFeed]. *)
Definition byUrgency (a b : Report.t) : Z :=
  (priority (Report.urgency b) - priority (Report.urgency a))%Z.

(** [Array.prototype.sort], which ECMAScript 2019 requires to be stable:
    an element moves in front of another only when the comparator is
    positive on (earlier, later).  Insertion from the right does that. *)
Fixpoint insertBy {A} (cmp : A -> A -> Z) (x : A) (l : list A) : list A :=
  match l with
  | [] => [x]
  | y :: l' =>
      if (cmp x y <=? 0)%Z then x :: y :: l' else y :: insertBy cmp x l'
  end.

Definition sort {A} (cmp : A -> A -> Z) (l : list A) : list A :=
  fold_right (insertBy cmp) [] l.

(** [[...appState.reports].sort(...)] *)
Definition sortedReports (rs : list Report.t) : list Report.t :=
  sort byUrgency rs.

Definition actionButtonOf (report : Report.t) : ActionButton :=
  if String.eqb (Report.status report) "PENDING" then
    DispatchTeam (Report.id report)
  else if String.eqb (Report.status report) "DISPATCHED" then TeamActive
  else NoButton.

Definition validationDisplayOf (report : Report.t) : Validation :=
  if String.eqb (Report.verificationType report) "photo" then
    if Report.hasPhoto report then PhotoAttached else NoPhotoUploaded
  else if String.eqb (Report.verificationType report) "sensor" then
    if Report.sensorVerified report then SensorVerified else SensorSkipped
  else if String.eqb (Report.verificationType report) "sms" then SmsRequested
  else NoValidation.

(** ** The event loop

    Everything that can call into the page: user actions, the answers of
    the geolocation service and timers coming due.  The loop runs one
    handler after the other; a handler that throws is abandoned and the
    state is as it left it. *)

Inductive Event : Type :=
  | ToggleRole
  | StartReport
  | GeoSuccess (latitude longitude accuracy : float)
  | GeoError
  | OpenManualLocationPicker
  | DragMarker (lat lng : float)
  | ConfirmManualLocation
  | SelectSeverity (level : string)
  | SetVerificationMode (mode : string)
  | ChooseFiles (n : nat)
  | TypePeople (v : string)
  | RunSensorCheck
  | CancelReport
  | SubmitReport (now : Z) (time : string)
  | ClickDispatch (id : Z)
  | TimerFires (n : nat).

Definition findTimer (n : nat) (ts : list (nat * Timer)) : option Timer :=
  option_map snd (find (fun p => Nat.eqb (fst p) n) ts).

Definition hasDispatchButton (id : Z) (feed : list Card) : bool :=
  existsb (fun c => match actionButton c with
                    | DispatchTeam i => Z.eqb i id
                    | _ => false
                    end) feed.

Section Admin.

Variable M : MathHost.

(** The body of [sortedReports.forEach] in [renderAdminFeed]: reading
    [nearestSite.lat] throws when [findNearestSite] returned [null]. *)
Definition renderCard (report : Report.t) : Js unit :=
  match findNearestSite M evacuationSites
          (Report.lat report) (Report.lng report) with
  | None => throw TypeError
  | Some site =>
      let card :=
        mkCard report (Report.accuracy report <=? 20) site
               (actionButtonOf report) (validationDisplayOf report) in
      modifyBrowser (fun b => setAdminFeed (adminFeed b ++ [card]) b)
  end.

Definition renderAdminFeed : Js unit :=
  modifyBrowser (setAdminFeed []) ;;;
  rs <- gets (fun st => reports (appState st)) ;;
  forEach renderCard (sortedReports rs).

Definition toggleRole : Js unit :=
  v <- gets (fun st => currentView (appState st)) ;;
  if String.eqb v "user" then
    modifyApp (setCurrentView "admin") ;;;
    renderAdminFeed
  else
    modifyApp (setCurrentView "user").

Definition dispatchedMessage (id : Z) : string :=
  "Team dispatched to Incident #" ++ NilZero.string_of_int (Z.to_int id).

Definition updateStatus (id : Z) (newStatus : string) : Js unit :=
  rs <- gets (fun st => reports (appState st)) ;;
  match findReport id rs with
  | Some _ =>
      modifyApp (fun a => setReports (writeStatus id newStatus (reports a)) a) ;;;
      renderAdminFeed ;;;
      alert (dispatchedMessage id)
  | None => ret tt
  end.

Definition handle (ev : Event) : Js unit :=
  match ev with
  | ToggleRole => toggleRole
  | StartReport => startReport
  | GeoSuccess la lo ac =>
      b <- gets browser ;;
      match geoRequests b with
      | O => ret tt
      | S k => modifyBrowser (setGeoRequests k) ;;; onPosition la lo ac
      end
  | GeoError =>
      b <- gets browser ;;
      match geoRequests b with
      | O => ret tt
      | S k => modifyBrowser (setGeoRequests k) ;;; onPositionError
      end
  | OpenManualLocationPicker => openManualLocationPicker
  | DragMarker la lo =>
      m <- gets manualMarker ;;
      match m with
      | Some _ => modify (setManualMarker (Some (la, lo)))
      | None => ret tt
      end
  | ConfirmManualLocation => confirmManualLocation
  | SelectSeverity level => selectSeverity level
  | SetVerificationMode mode => setVerificationMode mode
  | ChooseFiles n => modifyBrowser (setFileInputFiles n)
  | TypePeople v => modifyBrowser (setPeopleCount v)
  | RunSensorCheck => runSensorCheck
  | CancelReport => cancelReport
  | SubmitReport now time => submitReport now time
  | ClickDispatch id =>
      b <- gets browser ;;
      if hasDispatchButton id (adminFeed b) then updateStatus id "DISPATCHED"
      else ret tt
  | TimerFires n =>
      b <- gets browser ;;
      match findTimer n (timers b) with
      | Some SensorTimeout => modifyBrowser (clearTimer n) ;;; onSensorTimeout
      | Some (StatusInterval reportId) => onStatusInterval n reportId
      | None => ret tt
      end
  end.

Definition step (st : State) (ev : Event) : State := snd (handle ev st).

Definition run (evs : list Event) (st : State) : State :=
  fold_left step evs st.

End Admin.

(** ** A concrete host

    Truncated series for small angles: enough for the city-scale distances
    of the evacuation sites, and NaN goes through as ECMA-262 requires. *)

Definition smallAngleSin (x : float) : float := x - x * x * x / 6.
Definition smallAngleCos (x : float) : float := 1 - x * x / 2.
Definition smallAngleAtan2 (y x : float) : float :=
  if JsNum.isNaN y || JsNum.isNaN x then nan
  else let t := y / x in t - t * t * t / 3.

Definition smallAngle : MathHost :=
  {| sin := smallAngleSin;
     cos := smallAngleCos;
     atan2 := smallAngleAtan2;
     sin_nan := eq_refl;
     atan2_nan_l := fun _ => eq_refl |}.

(** ** Vocabulary of the statements *)

(** The distance [findNearestSite] computes for a site. *)
Definition distanceTo (M : MathHost) (lat lng : float) (site : Site.t) : float :=
  getDistance M lat lng (Site.lat site) (Site.lng site).

Definition urgencyEqb (u v : Urgency) : bool :=
  match u, v with
  | Critical, Critical | Moderate, Moderate | Low, Low => true
  | _, _ => false
  end.

(** The reports of one urgency class, in the order of the list. *)
Definition withUrgency (u : Urgency) (rs : list Report.t) : list Report.t :=
  filter (fun r => urgencyEqb (Report.urgency r) u) rs.

(** Rank order of the feed: never a lower rank before a higher one. *)
Definition rankGe (a b : Report.t) : Prop :=
  (priority (Report.urgency b) <= priority (Report.urgency a))%Z.

(** The stored location: [(currentUserLat, currentUserLng, currentUserAccuracy)]. *)
Definition location (st : State)
    : option float * option float * option float :=
  (currentUserLat (appState st), currentUserLng (appState st),
   currentUserAccuracy (appState st)).

(** The coordinates and accuracy a report carries. *)
Definition reportLocation (r : Report.t) : float * float * float :=
  (Report.lat r, Report.lng r, Report.accuracy r).

(** The status of the report that a lookup by id returns. *)
Definition statusOf (id : Z) (st : State) : option string :=
  option_map Report.status (findReport id (reports (appState st))).

Definition dispatched (id : Z) (st : State) : bool :=
  match statusOf id st with
  | Some s => String.eqb s "DISPATCHED"
  | None => false
  end.

(** The state after an [alert] and nothing else. *)
Definition alerted (msg : string) (st : State) : State :=
  setBrowser (pushAlert msg (browser st)) st.

(** [sortedReports.forEach(...)] of [renderAdminFeed] in closed form: the
    completion and the cards in the container, starting from [feed]. *)
Fixpoint renderCards (M : MathHost) (rs : list Report.t) (feed : list Card)
    : Completion unit * list Card :=
  match rs with
  | [] => (Normal tt, feed)
  | report :: rs' =>
      match findNearestSite M evacuationSites
              (Report.lat report) (Report.lng report) with
      | None => (Throw TypeError, feed)
      | Some site =>
          renderCards M rs'
            (feed ++ [mkCard report (Report.accuracy report <=? 20) site
                        (actionButtonOf report) (validationDisplayOf report)])
      end
  end.

(** The state [updateStatus] leaves when the lookup succeeds and the
    rendering has run. *)
Definition rendered (M : MathHost) (rs : list Report.t) (st : State) : State :=
  setBrowser
    (setAdminFeed (snd (renderCards M (sortedReports rs) [])) (browser st))
    (setAppState (setReports rs (appState st)) st).

(** The parts of the state the status watch depends on. *)
Definition store (st : State) : list Report.t := reports (appState st).
Definition watches (st : State) : list (nat * Timer) := timers (browser st).
Definition shown (st : State) : list (nat * Z) := dispatchedShown (browser st).
Definition fresh (st : State) : nat := nextTimer (browser st).

(** The reports of the cards in the feed container, top to bottom. *)
Definition feedReports (st : State) : list Report.t :=
  map cardReport (adminFeed (browser st)).

(** A report as [submitReport] stores it. *)
Definition newlyStored (r : Report.t) : Prop :=
  Report.urgency r = urgencyOf (Report.severity r) /\
  Report.status r = "PENDING"%string.

(** A report as the store holds it at any later time. *)
Definition wellFormed (r : Report.t) : Prop :=
  Report.urgency r = urgencyOf (Report.severity r) /\
  (Report.status r = "PENDING"%string \/ Report.status r = "DISPATCHED"%string).

(** What one event can do to them. *)
Inductive Effect (st st' : State) : Prop :=
  | EffNone :
      store st' = store st -> watches st' = watches st ->
      fresh st' = fresh st -> shown st' = shown st -> Effect st st'
  | EffAddTimer (t : Timer) (l : list Report.t) :
      Forall newlyStored l ->
      store st' = store st ++ l ->
      watches st' = watches st ++ [(fresh st, t)] ->
      fresh st' = S (fresh st) -> shown st' = shown st -> Effect st st'
  | EffDispatch (id : Z) :
      store st' = writeStatus id "DISPATCHED" (store st) ->
      watches st' = watches st ->
      fresh st' = fresh st -> shown st' = shown st -> Effect st st'
  | EffClear (n : nat) :
      store st' = store st -> watches st' = dropTimer n (watches st) ->
      fresh st' = fresh st -> shown st' = shown st -> Effect st st'
  | EffNotify (n : nat) (rid : Z) :
      findTimer n (watches st) = Some (StatusInterval rid) ->
      dispatched rid st = true ->
      store st' = store st ->
      watches st' = dropTimer n (watches st) \/ watches st' = watches st ->
      fresh st' = fresh st -> shown st' = shown st ++ [(n, rid)] ->
      Effect st st'.


(** The grey marker of the "dispatched" step is in place exactly as long
    as the status view has shown nothing. *)
Definition GrayInv (st : State) : Prop :=
  (stepDispatchedGray (browser st) = true -> shown st = []) /\
  (stepDispatchedGray (browser st) = false -> shown st <> []).

(** ** Route view *)

(** What [viewRoute] and its geolocation callbacks do with the browser:
    set [window.location.href] to the evacuation page for a coordinate,
    ask the geolocation service, or neither. *)
Inductive RouteAction : Type :=
  | Navigate (lat lon : float)
  | RequestPosition
  | NoRoute.

Definition viewRoute : Js RouteAction :=
  a <- gets appState ;;
  let lat := currentUserLat a in
  let lon := currentUserLng a in
  match lat, lon with
  | Some la, Some lo =>
      if JsNum.truthy la && JsNum.truthy lo then ret (Navigate la lo)
      else
        b <- gets browser ;;
        if geolocation b then ret RequestPosition
        else alert "Geolocation is not supported by this browser." ;;;
             ret NoRoute
  | _, _ =>
      b <- gets browser ;;
      if geolocation b then ret RequestPosition
      else alert "Geolocation is not supported by this browser." ;;;
           ret NoRoute
  end.

(** The two callbacks [viewRoute] passes to [getCurrentPosition]. *)
Definition onRoutePosition (latitude longitude : float) : Js RouteAction :=
  ret (Navigate latitude longitude).

Definition onRouteError : Js RouteAction :=
  alert "Could not get your location. Please enable GPS and try again." ;;;
  ret NoRoute.

(** ** More vocabulary *)

(** A report with its status blanked: what is left never changes. *)
Definition eraseStatus (r : Report.t) : Report.t := Report.setStatus "" r.


Definition isOpenPicker (ev : Event) : bool :=
  match ev with OpenManualLocationPicker => true | _ => false end.

Definition isSelectSeverity (ev : Event) : bool :=
  match ev with SelectSeverity _ => true | _ => false end.

Definition isSetVerificationMode (ev : Event) : bool :=
  match ev with SetVerificationMode _ => true | _ => false end.

Definition writesLocation (ev : Event) : bool :=
  match ev with
  | GeoSuccess _ _ _ | ConfirmManualLocation => true
  | _ => false
  end.

(** A card agrees with the store: its report is stored as shown and its
    button is the one for that report. *)
Definition cardCurrent (rs : list Report.t) (c : Card) : Prop :=
  In (cardReport c) rs /\ actionButton c = actionButtonOf (cardReport c).

(** The coordinates and the accuracy of a report are all truthy: numbers
    other than 0 and NaN. *)
Definition locationTruthy (r : Report.t) : bool :=
  JsNum.truthy (Report.lat r) && JsNum.truthy (Report.lng r) &&
  JsNum.truthy (Report.accuracy r).

(** What one event does to the store, the timers and the status view, case
    by case. *)
Inductive Change (st st' : State) : Prop :=
  | ChNone :
      store st' = store st -> watches st' = watches st ->
      shown st' = shown st ->
      stepDispatchedGray (browser st') = stepDispatchedGray (browser st) ->
      Change st st'
  | ChSubmit (r : Report.t) :
      Report.status r = "PENDING"%string ->
      locationTruthy r = true ->
      store st' = store st ++ [r] ->
      watches st' = watches st ++ [(fresh st, StatusInterval (Report.id r))] ->
      shown st' = shown st ->
      stepDispatchedGray (browser st') = stepDispatchedGray (browser st) ->
      Change st st'
  | ChSensorCheck :
      store st' = store st ->
      watches st' = watches st ++ [(fresh st, SensorTimeout)] ->
      shown st' = shown st ->
      stepDispatchedGray (browser st') = stepDispatchedGray (browser st) ->
      Change st st'
  | ChDispatch (id : Z) :
      store st' = writeStatus id "DISPATCHED" (store st) ->
      watches st' = watches st -> shown st' = shown st ->
      stepDispatchedGray (browser st') = stepDispatchedGray (browser st) ->
      Change st st'
  | ChSensorDone (n : nat) :
      findTimer n (watches st) = Some SensorTimeout ->
      store st' = store st -> watches st' = dropTimer n (watches st) ->
      shown st' = shown st ->
      stepDispatchedGray (browser st') = stepDispatchedGray (browser st) ->
      Change st st'
  | ChNotify (n : nat) (rid : Z) :
      findTimer n (watches st) = Some (StatusInterval rid) ->
      store st' = store st -> watches st' = dropTimer n (watches st) ->
      shown st' = shown st ++ [(n, rid)] ->
      stepDispatchedGray (browser st) = true ->
      stepDispatchedGray (browser st') = false ->
      Change st st'
  | ChRenotify (n : nat) (rid : Z) :
      findTimer n (watches st) = Some (StatusInterval rid) ->
      store st' = store st -> watches st' = watches st ->
      shown st' = shown st ++ [(n, rid)] ->
      stepDispatchedGray (browser st) = false ->
      stepDispatchedGray (browser st') = false ->
      Change st st'.

(** ** Scenarios *)

(** The picker opened on a fresh form, the marker dragged to
    (14.70, 121.10), severity chosen. *)
Definition manualPickState : State :=
  run smallAngle
    [StartReport; OpenManualLocationPicker; DragMarker 14.70 121.10;
     SelectSeverity "high"]
    initialState.

(** One report submitted with severity high and the admin view opened. *)
Definition pendingStore : State :=
  run smallAngle
    [SelectSeverity "high"; SubmitReport 1700000000000 "10:00"; ToggleRole]
    initialState.

(** A form filled in but for the severity: a position from the
    geolocation service, the picker opened and its marker dragged, the
    sensor check completed and started once more, a head count typed and
    two photos chosen. *)
Definition filledFormNoSeverity : State :=
  run smallAngle
    [StartReport; GeoSuccess 14.61 121.01 12;
     OpenManualLocationPicker; DragMarker 14.62 121.02;
     SetVerificationMode "sensor"; RunSensorCheck; TimerFires 0;
     RunSensorCheck; TypePeople "4"; ChooseFiles 2]
    initialState.

(** The geolocation service answered with latitude 0. *)
Definition zeroLatitudeState : State :=
  run smallAngle [StartReport; GeoSuccess 0 121.01 12] initialState.

(** The sensor tab chosen, the check run and its timeout passed, severity
    chosen. *)
Definition sensorCheckedForm : State :=
  run smallAngle
    [SetVerificationMode "sensor"; RunSensorCheck; TimerFires 0;
     SelectSeverity "high"]
    initialState.

(** A site list with a farther site first, a site whose latitude is
    missing, and two sites at the same place. *)
Definition mixedSites : list Site.t :=
  [ Site.mk "Evacuation Site 2" 14.65 121.05;
    Site.mk "Unsurveyed" nan 121.0;
    Site.mk "Annex" 14.6 121.0;
    Site.mk "Annex twin" 14.6 121.0 ].

(** Four submissions: low, high, high, med. *)
Definition fourReports : list Report.t :=
  reports (appState
    (run smallAngle
       [SelectSeverity "low"; SubmitReport 1700000000001 "10:01";
        SelectSeverity "high"; SubmitReport 1700000000002 "10:02";
        SubmitReport 1700000000003 "10:03";
        SelectSeverity "med"; SubmitReport 1700000000004 "10:04"]
       initialState)).

(** The same four submissions, the feed not yet rendered. *)
Definition fourReportsState : State :=
  run smallAngle
    [SelectSeverity "low"; SubmitReport 1700000000001 "10:01";
     SelectSeverity "high"; SubmitReport 1700000000002 "10:02";
     SubmitReport 1700000000003 "10:03";
     SelectSeverity "med"; SubmitReport 1700000000004 "10:04"]
    initialState.

(** Two submissions within one millisecond get the same id. *)
Definition twinStore : State :=
  run smallAngle
    [SelectSeverity "high"; TypePeople "2"; SubmitReport 1700000000000 "10:00";
     TypePeople "5"; SubmitReport 1700000000000 "10:00"; ToggleRole]
    initialState.

Definition twinFirst : Report.t :=
  Report.mk 1700000000000 "10:00" 14.5995 120.9842 15 "high" Critical "2"
    "PENDING" "photo" false false.

Definition twinSecond : Report.t :=
  Report.mk 1700000000000 "10:00" 14.5995 120.9842 15 "high" Critical "5"
    "PENDING" "photo" false false.

(** Two reports submitted and both dispatched by the admin. *)
Definition twoDispatched : State :=
  run smallAngle
    [SelectSeverity "high"; SubmitReport 1700000000001 "10:01";
     SubmitReport 1700000000002 "10:02"; ToggleRole;
     ClickDispatch 1700000000001; ClickDispatch 1700000000002]
    initialState.

(** ** Case analysis on [spec_float] comparisons *)

Ltac sf_cases :=
  repeat match goal with
  | |- context [Z.compare ?a ?b] => destruct (Z.compare_spec a b); subst
  | H : context [Z.compare ?a ?b] |- _ => destruct (Z.compare_spec a b); subst
  | |- context [Pos.compare_cont Eq ?a ?b] =>
      change (Pos.compare_cont Eq a b) with (Pos.compare a b)
  | H : context [Pos.compare_cont Eq ?a ?b] |- _ =>
      change (Pos.compare_cont Eq a b) with (Pos.compare a b) in H
  | |- context [Pos.compare ?a ?b] => destruct (Pos.compare_spec a b); subst
  | H : context [Pos.compare ?a ?b] |- _ => destruct (Pos.compare_spec a b); subst
  end; simpl in *; try congruence; try lia.

Ltac sf_destruct x :=
  let s := fresh "s" in let m := fresh "m" in let e := fresh "e" in
  destruct x as [s|s| |s m e]; try destruct s.

(** * Properties *)

(** ** Binary64 comparison

    [<?] and [<=?] are specified on [spec_float], where comparison is
    lexicographic on sign, exponent and mantissa. *)

Lemma SFltb_le_trans (d m x : spec_float) :
  SFltb d m = true -> SFltb x m = false -> x <> S754_nan -> SFltb d x = true.
Proof.
  unfold SFltb. sf_destruct d; sf_destruct m; sf_destruct x;
    simpl; try congruence; try reflexivity; intros; sf_cases.
Qed.

Lemma SFltb_asym (x y : spec_float) : SFltb x y = true -> SFltb y x = false.
Proof.
  unfold SFltb. sf_destruct x; sf_destruct y;
    simpl; try congruence; try reflexivity; intros; sf_cases.
Qed.

Lemma SFltb_not_nan_l (x y : spec_float) : SFltb x y = true -> x <> S754_nan.
Proof.
  intros H ->. discriminate H.
Qed.

Lemma SFltb_not_nan_r (x y : spec_float) : SFltb x y = true -> y <> S754_nan.
Proof.
  intros H ->. destruct x; discriminate H.
Qed.

Lemma SFleb_of_not_ltb (x y : spec_float) :
  x <> S754_nan -> y <> S754_nan -> SFltb x y = false -> SFleb y x = true.
Proof.
  unfold SFltb, SFleb. sf_destruct x; sf_destruct y;
    simpl; try congruence; try reflexivity; intros; sf_cases.
Qed.

Lemma SFeqb_refl_iff (x : spec_float) : SFeqb x x = true <-> x <> S754_nan.
Proof.
  unfold SFeqb. sf_destruct x; simpl;
    rewrite ?Z.compare_refl, ?Pos.compare_cont_refl; simpl;
    split; congruence.
Qed.

Lemma isNaN_false_iff (x : float) :
  JsNum.isNaN x = false <-> Prim2SF x <> S754_nan.
Proof.
  unfold JsNum.isNaN. rewrite eqb_spec, negb_false_iff.
  apply SFeqb_refl_iff.
Qed.

Lemma isNaN_true_iff (x : float) : JsNum.isNaN x = true <-> x = nan.
Proof.
  split.
  - intros H. apply Prim2SF_inj.
    destruct (isNaN_false_iff x) as [_ K].
    destruct (Prim2SF x) eqn:E; try reflexivity;
      rewrite K in H by discriminate; discriminate H.
  - intros ->. reflexivity.
Qed.

Lemma ltb_asym (x y : float) : (x <? y) = true -> (y <? x) = false.
Proof.
  rewrite !ltb_spec. apply SFltb_asym.
Qed.

Lemma ltb_irrefl (x : float) : (x <? x) = false.
Proof.
  destruct (x <? x) eqn:E; [|reflexivity].
  rewrite <- E. now apply ltb_asym.
Qed.

Lemma ltb_le_trans (d m x : float) :
  (d <? m) = true -> (x <? m) = false -> JsNum.isNaN x = false ->
  (d <? x) = true.
Proof.
  rewrite !ltb_spec, isNaN_false_iff. apply SFltb_le_trans.
Qed.

Lemma ltb_isNaN_l (x y : float) : (x <? y) = true -> JsNum.isNaN x = false.
Proof.
  rewrite ltb_spec, isNaN_false_iff. apply SFltb_not_nan_l.
Qed.

Lemma ltb_isNaN_r (x y : float) : (x <? y) = true -> JsNum.isNaN y = false.
Proof.
  rewrite ltb_spec, isNaN_false_iff. apply SFltb_not_nan_r.
Qed.

Lemma ltb_trans (x y z : float) :
  (x <? y) = true -> (y <? z) = true -> (x <? z) = true.
Proof.
  intros Hxy Hyz. apply ltb_le_trans with y; trivial.
  - now apply ltb_asym.
  - now apply ltb_isNaN_r with y.
Qed.

(** Nothing that fails [x <? m] gets below a [d] with [d <? m]. *)
Lemma ltb_false_below (d m x : float) :
  (d <? m) = true -> (x <? m) = false -> (x <? d) = false.
Proof.
  intros Hd Hx. destruct (x <? d) eqn:E; [|reflexivity].
  rewrite (ltb_trans _ _ _ E Hd) in Hx. discriminate.
Qed.

Lemma leb_of_not_ltb (x y : float) :
  JsNum.isNaN x = false -> JsNum.isNaN y = false ->
  (x <? y) = false -> (y <=? x) = true.
Proof.
  rewrite !isNaN_false_iff, ltb_spec, leb_spec. apply SFleb_of_not_ltb.
Qed.

Lemma nan_ltb (y : float) : (nan <? y) = false.
Proof.
  rewrite ltb_spec. reflexivity.
Qed.

(** NaN is absorbing for the arithmetic [getDistance] does on it. *)

Lemma sub_nan_r (x : float) : x - nan = nan.
Proof.
  apply Prim2SF_inj. rewrite sub_spec.
  change (Prim2SF nan) with S754_nan. now destruct (Prim2SF x).
Qed.

Lemma add_nan_l (y : float) : nan + y = nan.
Proof.
  apply Prim2SF_inj. rewrite add_spec. reflexivity.
Qed.

Lemma div_nan_l (y : float) : nan / y = nan.
Proof.
  apply Prim2SF_inj. rewrite div_spec. reflexivity.
Qed.

(** ** GeoMath: the scan of [findNearestSite] *)

Section Scan.

Variable M : MathHost.
Variables lat lng : float.

Local Abbreviation dist := (distanceTo M lat lng).

Lemma scanSite_eq (acc : option Site.t * float) (site : Site.t) :
  scanSite M lat lng acc site =
  if dist site <? snd acc then (Some site, dist site) else acc.
Proof. reflexivity. Qed.

(** What the loop leaves in [(nearestSite, minDistance)], started from any
    pair: either no site went below the starting minimum and the pair is
    untouched, or the pair holds the first site of least distance among
    those that did. *)
Lemma scan_inv (sites : list Site.t) :
  forall acc,
    let r := fold_left (scanSite M lat lng) sites acc in
    (r = acc /\ Forall (fun s => (dist s <? snd acc) = false) sites) \/
    (exists i s,
        nth_error sites i = Some s /\
        r = (Some s, dist s) /\
        (dist s <? snd acc) = true /\
        Forall (fun s' => (dist s' <? dist s) = false) sites /\
        (forall j s', (j < i)%nat -> nth_error sites j = Some s' ->
           JsNum.isNaN (dist s') = false -> (dist s <? dist s') = true)).
Proof.
  induction sites as [|x rest IH]; intros acc; cbn zeta.
  - left. split; [reflexivity | constructor].
  - cbn [fold_left]. rewrite scanSite_eq.
    destruct (dist x <? snd acc) eqn:Hx.
    + specialize (IH (Some x, dist x)). cbn zeta in IH. cbn [snd] in IH.
      destruct IH as [[Hr Hall] | (i & s & Hi & Hr & Hlt & Hall & Hearlier)].
      * right. exists 0%nat, x. repeat split; trivial.
        -- constructor; [apply ltb_irrefl | exact Hall].
        -- intros j s' Hj. inversion Hj.
      * right. exists (S i), s. repeat split; trivial.
        -- now apply ltb_trans with (dist x).
        -- constructor; [now apply ltb_asym | exact Hall].
        -- intros [|j] s' Hj Hnth Hnan.
           ++ cbn in Hnth. now inversion Hnth; subst.
           ++ apply (Hearlier j); trivial. lia.
    + specialize (IH acc). cbn zeta in IH.
      destruct IH as [[Hr Hall] | (i & s & Hi & Hr & Hlt & Hall & Hearlier)].
      * left. split; [exact Hr | now constructor].
      * right. exists (S i), s. repeat split; trivial.
        -- constructor; [now apply ltb_false_below with (snd acc) | exact Hall].
        -- intros [|j] s' Hj Hnth Hnan.
           ++ cbn in Hnth. inversion Hnth; subst.
              now apply ltb_le_trans with (snd acc).
           ++ apply (Hearlier j); trivial. lia.
Qed.

(** The result of [findNearestSite] in every case: [null] exactly when no
    distance is below [Infinity]; otherwise a listed site that no site
    undercuts and that is strictly nearer than each earlier site whose
    distance is a number. *)
Lemma findNearestSite_cases (sites : list Site.t) :
  (findNearestSite M sites lat lng = None /\
   Forall (fun s => (dist s <? infinity) = false) sites) \/
  (exists i s,
      nth_error sites i = Some s /\
      findNearestSite M sites lat lng = Some s /\
      (dist s <? infinity) = true /\
      Forall (fun s' => (dist s' <? dist s) = false) sites /\
      (forall j s', (j < i)%nat -> nth_error sites j = Some s' ->
         JsNum.isNaN (dist s') = false -> (dist s <? dist s') = true)).
Proof.
  unfold findNearestSite.
  destruct (scan_inv sites (None, infinity))
    as [[Hr Hall] | (i & s & Hi & Hr & Hlt & Hall & Hearlier)].
  - left. rewrite Hr. split; [reflexivity | exact Hall].
  - right. exists i, s. rewrite Hr. repeat split; trivial.
Qed.

End Scan.

(** A NaN latitude makes every distance NaN, on every host. *)
Lemma getDistance_nan (M : MathHost) (lon1 lat2 lon2 : float) :
  getDistance M nan lon1 lat2 lon2 = nan.
Proof.
  unfold getDistance, deg2rad. cbv zeta.
  rewrite sub_nan_r.
  change (nan * (PI / 180) / 2) with nan.
  rewrite sin_nan. change (nan * nan) with nan.
  rewrite add_nan_l. change (sqrt nan) with nan.
  rewrite atan2_nan_l. reflexivity.
Qed.

(** On every host and for every site list, a query point whose latitude
    is NaN gets [null]. *)
Lemma findNearestSite_nan (M : MathHost) (sites : list Site.t) (lng : float) :
  findNearestSite M sites nan lng = None.
Proof.
  destruct (findNearestSite_cases M nan lng sites)
    as [[H _] | (i & s & _ & _ & Hlt & _)]; [exact H|].
  unfold distanceTo in Hlt. rewrite getDistance_nan, nan_ltb in Hlt.
  discriminate Hlt.
Qed.

(** C6 (as amended): for every site list and query point, when some
    site's Haversine distance is below Infinity, [findNearestSite] returns
    a listed site whose distance is below Infinity and least among the
    sites whose distance is a number (a site at a NaN distance is passed
    over), and every site listed before it whose distance is a number is
    strictly farther, so that among sites at exactly the least distance the
    earliest is returned; when no site's distance is below Infinity it
    returns [null]. *)
Theorem findNearestSite_least_earliest
    (M : MathHost) (sites : list Site.t) (lat lng : float) :
  ((exists s0, In s0 sites /\ (distanceTo M lat lng s0 <? infinity) = true) ->
   exists i s,
     nth_error sites i = Some s /\
     findNearestSite M sites lat lng = Some s /\
     (distanceTo M lat lng s <? infinity) = true /\
     (forall s', In s' sites ->
        JsNum.isNaN (distanceTo M lat lng s') = false ->
        (distanceTo M lat lng s <=? distanceTo M lat lng s') = true) /\
     (forall j s', (j < i)%nat -> nth_error sites j = Some s' ->
        JsNum.isNaN (distanceTo M lat lng s') = false ->
        (distanceTo M lat lng s <? distanceTo M lat lng s') = true)) /\
  ((forall s0, In s0 sites -> (distanceTo M lat lng s0 <? infinity) = false) ->
   findNearestSite M sites lat lng = None).
Proof.
  destruct (findNearestSite_cases M lat lng sites)
    as [[Hr Hnone] | (i & s & Hi & Hr & Hlt & Hmin & Hearlier)].
  - split; [|intros _; exact Hr].
    intros (s0 & Hin & Hs0). rewrite Forall_forall in Hnone.
    rewrite (Hnone s0 Hin) in Hs0. discriminate Hs0.
  - split.
    + intros _. exists i, s. repeat split; trivial.
      intros s' Hin Hnan. rewrite Forall_forall in Hmin.
      apply leb_of_not_ltb.
      * exact Hnan.
      * now apply ltb_isNaN_l with infinity.
      * now apply Hmin.
    + intros Hall. rewrite (Hall s) in Hlt; [discriminate Hlt|].
      now apply nth_error_In with i.
Qed.

Lemma findNearestSite_least_earliest_witness :
  exists i s,
    i = 2%nat /\
    nth_error mixedSites i = Some s /\
    findNearestSite smallAngle mixedSites 14.5995 120.9842 = Some s /\
    (distanceTo smallAngle 14.5995 120.9842 s <? infinity) = true /\
    (forall s', In s' mixedSites ->
       JsNum.isNaN (distanceTo smallAngle 14.5995 120.9842 s') = false ->
       (distanceTo smallAngle 14.5995 120.9842 s <=?
        distanceTo smallAngle 14.5995 120.9842 s') = true) /\
    (forall j s', (j < i)%nat -> nth_error mixedSites j = Some s' ->
       JsNum.isNaN (distanceTo smallAngle 14.5995 120.9842 s') = false ->
       (distanceTo smallAngle 14.5995 120.9842 s <?
        distanceTo smallAngle 14.5995 120.9842 s') = true).
Proof.
  destruct (proj1 (findNearestSite_least_earliest smallAngle mixedSites
                     14.5995 120.9842))
    as (i & s & Hi & Hr & Hrest).
  - exists (Site.mk "Evacuation Site 2" 14.65 121.05). split.
    + left. reflexivity.
    + vm_compute. reflexivity.
  - exists i, s. split; [|split; [exact Hi | split; [exact Hr | exact Hrest]]].
    assert (Hs : s = Site.mk "Annex" 14.6 121.0).
    { vm_compute in Hr. now injection Hr. }
    subst s.
    destruct i as [|[|[|[|i]]]]; cbn in Hi;
      try reflexivity; try discriminate Hi.
    destruct i; discriminate Hi.
Defined.

(** The same list scanned site by site: the far site is taken first, the site without a latitude is passed over,
    the annex undercuts the far site and its twin, at the same distance,
    does not replace it. *)
Lemma findNearestSite_mixed_trace :
  findNearestSite smallAngle (firstn 1 mixedSites) 14.5995 120.9842 =
    Some (Site.mk "Evacuation Site 2" 14.65 121.05) /\
  findNearestSite smallAngle (firstn 2 mixedSites) 14.5995 120.9842 =
    Some (Site.mk "Evacuation Site 2" 14.65 121.05) /\
  findNearestSite smallAngle (firstn 3 mixedSites) 14.5995 120.9842 =
    Some (Site.mk "Annex" 14.6 121.0) /\
  findNearestSite smallAngle mixedSites 14.5995 120.9842 =
    Some (Site.mk "Annex" 14.6 121.0) /\
  JsNum.isNaN
    (distanceTo smallAngle 14.5995 120.9842 (Site.mk "Unsurveyed" nan 121.0)) =
    true /\
  distanceTo smallAngle 14.5995 120.9842 (Site.mk "Annex twin" 14.6 121.0) =
    distanceTo smallAngle 14.5995 120.9842 (Site.mk "Annex" 14.6 121.0).
Proof.
  vm_compute. repeat split; reflexivity.
Qed.

(** C6, as stated, fails at a query point whose latitude is NaN: the list
    is not empty and the result is [null] (on this host as on any other,
    by [getDistance_nan]). *)
Lemma findNearestSite_nan_point :
  findNearestSite smallAngle evacuationSites nan 120.9842 = None.
Proof.
  vm_compute. reflexivity.
Qed.

(** C7 (as amended): on an empty site list [findNearestSite] returns
    [null]; it raises nothing, on any host and for any point. *)
Theorem findNearestSite_empty (M : MathHost) (lat lng : float) :
  findNearestSite M [] lat lng = None.
Proof.
  unfold findNearestSite. cbn [fold_left fst]. reflexivity.
Qed.

(** C7, as stated, fails: the empty list yields [null], not an error. *)
Lemma findNearestSite_empty_returns_null :
  findNearestSite smallAngle [] 14.5995 120.9842 = None.
Proof.
  vm_compute. reflexivity.
Qed.

(** ** AdminTriage: the order of the feed *)

Section InsertBy.

Context {A : Type} (cmp : A -> A -> Z).

Lemma insertBy_front (x : A) (l : list A) :
  Forall (fun y => (cmp x y <= 0)%Z) l -> insertBy cmp x l = x :: l.
Proof.
  intros H. destruct H as [|y l Hy _]; [reflexivity|].
  cbn. now apply Z.leb_le in Hy; rewrite Hy.
Qed.

Lemma insertBy_skip (x : A) (p q : list A) :
  Forall (fun y => (0 < cmp x y)%Z) p ->
  insertBy cmp x (p ++ q) = p ++ insertBy cmp x q.
Proof.
  induction 1 as [|y p Hy _ IH]; [reflexivity|].
  cbn. apply Z.leb_gt in Hy. now rewrite Hy, IH.
Qed.

End InsertBy.

Lemma withUrgency_cons (u : Urgency) (r : Report.t) (rs : list Report.t) :
  withUrgency u (r :: rs) =
  if urgencyEqb (Report.urgency r) u then r :: withUrgency u rs
  else withUrgency u rs.
Proof. reflexivity. Qed.

Lemma withUrgency_urgency (u : Urgency) (rs : list Report.t) :
  Forall (fun r => Report.urgency r = u) (withUrgency u rs).
Proof.
  apply Forall_forall. intros r Hin. apply filter_In in Hin as [_ H].
  destruct (Report.urgency r), u; trivial; discriminate.
Qed.

(** A stable sort by rank is the three urgency classes one after the
    other, each in store order. *)
Lemma sortedReports_classes (rs : list Report.t) :
  sortedReports rs =
  withUrgency Critical rs ++ withUrgency Moderate rs ++ withUrgency Low rs.
Proof.
  induction rs as [|r rs IH]; [reflexivity|].
  unfold sortedReports, sort in *. cbn [fold_right]. rewrite IH.
  pose proof (withUrgency_urgency Critical rs) as HC.
  pose proof (withUrgency_urgency Moderate rs) as HM.
  pose proof (withUrgency_urgency Low rs) as HL.
  rewrite !withUrgency_cons.
  destruct (Report.urgency r) eqn:Hu; cbn [urgencyEqb].
  - apply insertBy_front. rewrite !Forall_app. repeat split;
      eapply Forall_impl; try eassumption; cbn beta;
      intros y Hy; unfold byUrgency; rewrite Hu, Hy; cbn; lia.
  - rewrite insertBy_skip.
    + f_equal. apply insertBy_front. rewrite Forall_app. split;
        eapply Forall_impl; try eassumption; cbn beta;
        intros y Hy; unfold byUrgency; rewrite Hu, Hy; cbn; lia.
    + eapply Forall_impl; try eassumption; cbn beta.
      intros y Hy; unfold byUrgency; rewrite Hu, Hy; cbn; lia.
  - rewrite insertBy_skip.
    + f_equal. rewrite insertBy_skip.
      * f_equal. apply insertBy_front.
        eapply Forall_impl; try eassumption; cbn beta.
        intros y Hy; unfold byUrgency; rewrite Hu, Hy; cbn; lia.
      * eapply Forall_impl; try eassumption; cbn beta.
        intros y Hy; unfold byUrgency; rewrite Hu, Hy; cbn; lia.
    + eapply Forall_impl; try eassumption; cbn beta.
      intros y Hy; unfold byUrgency; rewrite Hu, Hy; cbn; lia.
Qed.

Lemma classes_permutation (rs : list Report.t) :
  Permutation rs
    (withUrgency Critical rs ++ withUrgency Moderate rs ++ withUrgency Low rs).
Proof.
  induction rs as [|r rs IH]; [constructor|].
  rewrite !withUrgency_cons.
  destruct (Report.urgency r); cbn [urgencyEqb].
  - now constructor.
  - now apply Permutation_cons_app.
  - rewrite app_assoc. apply Permutation_cons_app. now rewrite <- app_assoc.
Qed.

Lemma StronglySorted_append {A} (R : A -> A -> Prop) (l1 l2 : list A) :
  StronglySorted R l1 -> StronglySorted R l2 ->
  (forall a b, In a l1 -> In b l2 -> R a b) ->
  StronglySorted R (l1 ++ l2).
Proof.
  induction 1 as [|a l1 Hs IH Ha]; intros H2 Hcross; [exact H2|].
  cbn. constructor.
  - apply IH; trivial. intros; apply Hcross; trivial. now right.
  - apply Forall_app. split; [exact Ha|].
    apply Forall_forall. intros b Hb. apply Hcross; trivial. now left.
Qed.

Lemma class_sorted (u : Urgency) (rs : list Report.t) :
  StronglySorted rankGe (withUrgency u rs).
Proof.
  pose proof (withUrgency_urgency u rs) as H.
  induction H as [|r l Hr Hl IH]; constructor; trivial.
  eapply Forall_impl; [|exact Hl]. cbn beta.
  intros b Hb. unfold rankGe. rewrite Hr, Hb. lia.
Qed.

Lemma withUrgency_in (u : Urgency) (rs : list Report.t) (r : Report.t) :
  In r (withUrgency u rs) -> Report.urgency r = u.
Proof.
  intros H. pose proof (withUrgency_urgency u rs) as F.
  rewrite Forall_forall in F. now apply F.
Qed.

Lemma classes_sorted (rs : list Report.t) :
  StronglySorted rankGe
    (withUrgency Critical rs ++ withUrgency Moderate rs ++ withUrgency Low rs).
Proof.
  repeat apply StronglySorted_append; try apply class_sorted.
  - intros a b Ha Hb. unfold rankGe.
    rewrite (withUrgency_in _ _ _ Ha), (withUrgency_in _ _ _ Hb). cbn; lia.
  - intros a b Ha Hb. unfold rankGe. rewrite (withUrgency_in _ _ _ Ha).
    apply in_app_or in Hb as [Hb|Hb];
      rewrite (withUrgency_in _ _ _ Hb); cbn; lia.
Qed.

Lemma withUrgency_withUrgency (u v : Urgency) (rs : list Report.t) :
  withUrgency u (withUrgency v rs) =
  if urgencyEqb u v then withUrgency u rs else [].
Proof.
  induction rs as [|r rs IH]; [now destruct (urgencyEqb u v)|].
  rewrite (withUrgency_cons v), (withUrgency_cons u).
  destruct (Report.urgency r) eqn:Hr, u, v; cbn [urgencyEqb] in *;
    rewrite ?withUrgency_cons, ?Hr; cbn [urgencyEqb]; now rewrite ?IH.
Qed.

Lemma withUrgency_app (u : Urgency) (l1 l2 : list Report.t) :
  withUrgency u (l1 ++ l2) = withUrgency u l1 ++ withUrgency u l2.
Proof. apply filter_app. Qed.

(** The sorted copy [renderAdminFeed] walks through: a rearrangement of
    the store that never puts a lower urgency rank before a higher one and
    keeps the reports of each urgency in their order. *)
Lemma sortedReports_stable (rs : list Report.t) :
  Permutation rs (sortedReports rs) /\
  StronglySorted rankGe (sortedReports rs) /\
  (forall u, withUrgency u (sortedReports rs) = withUrgency u rs).
Proof.
  rewrite sortedReports_classes. repeat split.
  - apply classes_permutation.
  - apply classes_sorted.
  - intros u. rewrite !withUrgency_app, !withUrgency_withUrgency.
    destruct u; cbn [urgencyEqb]; now rewrite ?app_nil_r.
Qed.

Lemma sortedReports_four (R1 R2 R3 R4 : Report.t) :
  Report.urgency R1 = urgencyOf "low" ->
  Report.urgency R2 = urgencyOf "high" ->
  Report.urgency R3 = urgencyOf "high" ->
  Report.urgency R4 = urgencyOf "med" ->
  sortedReports [R1; R2; R3; R4] = [R2; R3; R4; R1].
Proof.
  intros H1 H2 H3 H4. rewrite sortedReports_classes.
  rewrite !withUrgency_cons, H1, H2, H3, H4. reflexivity.
Qed.

Lemma StronglySorted_prefix {A} (R : A -> A -> Prop) (l1 l2 : list A) :
  StronglySorted R (l1 ++ l2) -> StronglySorted R l1.
Proof.
  induction l1 as [|x l1 IH]; [constructor|].
  cbn. intros H. inversion H as [|? ? Hs Hf]; subst.
  constructor; [now apply IH|].
  apply Forall_app in Hf. apply Hf.
Qed.

(** ** ReportLifecycle: submission *)

Lemma submitReport_no_severity (now : Z) (time : string) (st : State) :
  selectedSeverityLevel st = ""%string ->
  submitReport now time st =
  (Normal tt, alerted "Please select a water level severity." st).
Proof.
  intros H. unfold submitReport, bind, gets. rewrite H. reflexivity.
Qed.

(** The report literal [submitReport] builds in [st]. *)
Lemma submitReport_accepted (now : Z) (time : string) (st : State) :
  String.eqb (selectedSeverityLevel st) "" = false ->
  submitReport now time st =
  (Normal tt,
   setBrowser (addTimer (StatusInterval now) (browser st))
     (setAppState
        (setReports
           (reports (appState st) ++
            [Report.mk now time
               (JsNum.orElse (currentUserLat (appState st)) 14.5995)
               (JsNum.orElse (currentUserLng (appState st)) 120.9842)
               (JsNum.orElse (currentUserAccuracy (appState st)) 15)
               (selectedSeverityLevel st)
               (urgencyOf (selectedSeverityLevel st))
               (peopleCount (browser st)) "PENDING"
               (currentVerificationMode st)
               (Nat.ltb 0 (fileInputFiles (browser st)))
               (sensorVerified st)])
           (appState st)) st)).
Proof.
  intros H. unfold submitReport, bind, gets. rewrite H. reflexivity.
Qed.

(** C8: with no severity selected, [submitReport] stops at the prompt
    "Please select a water level severity." and changes nothing: the store
    (hence its size), the location and accuracy, the verification mode and
    sensor flag, the people count and chosen files are as before, and no
    status watch is started. *)
Theorem submitReport_missing_severity_no_mutation
    (now : Z) (time : string) (st : State) :
  selectedSeverityLevel st = ""%string ->
  let st' := snd (submitReport now time st) in
  fst (submitReport now time st) = Normal tt /\
  alerts (browser st') =
    alerts (browser st) ++ ["Please select a water level severity."%string] /\
  reports (appState st') = reports (appState st) /\
  List.length (reports (appState st')) = List.length (reports (appState st)) /\
  location st' = location st /\
  appState st' = appState st /\
  selectedSeverityLevel st' = ""%string /\
  currentVerificationMode st' = currentVerificationMode st /\
  sensorVerified st' = sensorVerified st /\
  manualMarker st' = manualMarker st /\
  peopleCount (browser st') = peopleCount (browser st) /\
  fileInputFiles (browser st') = fileInputFiles (browser st) /\
  timers (browser st') = timers (browser st).
Proof.
  intros H st'. subst st'. rewrite (submitReport_no_severity now time st H).
  cbn. rewrite H. repeat split; reflexivity.
Qed.

Lemma submitReport_missing_severity_no_mutation_witness :
  let st := filledFormNoSeverity in
  let st' := snd (submitReport 1700000000000 "10:00" st) in
  (location st = (Some 14.61, Some 121.01, Some 12) /\
   currentVerificationMode st = "sensor"%string /\
   sensorVerified st = true /\
   manualMarker st = Some (14.62, 121.02) /\
   peopleCount (browser st) = "4"%string /\
   fileInputFiles (browser st) = 2%nat /\
   timers (browser st) = [(1%nat, SensorTimeout)]) /\
  fst (submitReport 1700000000000 "10:00" st) = Normal tt /\
  alerts (browser st') =
    alerts (browser st) ++ ["Please select a water level severity."%string] /\
  reports (appState st') = reports (appState st) /\
  List.length (reports (appState st')) = List.length (reports (appState st)) /\
  location st' = location st /\
  appState st' = appState st /\
  selectedSeverityLevel st' = ""%string /\
  currentVerificationMode st' = currentVerificationMode st /\
  sensorVerified st' = sensorVerified st /\
  manualMarker st' = manualMarker st /\
  peopleCount (browser st') = peopleCount (browser st) /\
  fileInputFiles (browser st') = fileInputFiles (browser st) /\
  timers (browser st') = timers (browser st).
Proof.
  split.
  - vm_compute. repeat split; reflexivity.
  - apply (submitReport_missing_severity_no_mutation 1700000000000 "10:00"
             filledFormNoSeverity).
    vm_compute. reflexivity.
Defined.


(** ** ReportLifecycle: location *)

Lemma step_confirmManualLocation (M : MathHost) (st : State) (mlat mlng : float) :
  manualMarker st = Some (mlat, mlng) ->
  step M st ConfirmManualLocation =
  setAppState (setLocation mlat mlng 0 (appState st)) st.
Proof.
  intros H. unfold step, handle, confirmManualLocation, bind, gets.
  rewrite H. reflexivity.
Qed.

Lemma step_GeoSuccess (M : MathHost) (st : State) (k : nat) (la lo ac : float) :
  geoRequests (browser st) = S k ->
  step M st (GeoSuccess la lo ac) =
  setAppState (setLocation la lo ac (appState st))
    (setBrowser (setGeoRequests k (browser st)) st).
Proof.
  intros H. unfold step, handle, bind, gets. rewrite H. reflexivity.
Qed.

Lemma step_SubmitReport (M : MathHost) (st : State) (now : Z) (time : string) :
  step M st (SubmitReport now time) = snd (submitReport now time st).
Proof. reflexivity. Qed.

(** Values that are truthy go into the report as they are. *)
Lemma orElse_truthy (x d : float) :
  JsNum.truthy x = true -> JsNum.orElse (Some x) d = x.
Proof.
  intros H. cbn. now rewrite H.
Qed.

(** C2: after a manual location is confirmed the stored accuracy is the
    sentinel 0, yet the report built by the following successful
    [submitReport] has accuracy 15: [0 || 15] takes the default.  Latitude
    and longitude go through the same [||]. *)
Theorem manual_confirm_accuracy_replaced
    (M : MathHost) (st : State) (mlat mlng : float) (now : Z) (time : string) :
  manualMarker st = Some (mlat, mlng) ->
  String.eqb (selectedSeverityLevel st) "" = false ->
  let st1 := step M st ConfirmManualLocation in
  let st2 := step M st1 (SubmitReport now time) in
  location st1 = (Some mlat, Some mlng, Some 0) /\
  exists r,
    reports (appState st2) = reports (appState st) ++ [r] /\
    Report.lat r = JsNum.orElse (Some mlat) 14.5995 /\
    Report.lng r = JsNum.orElse (Some mlng) 120.9842 /\
    Report.accuracy r = 15.
Proof.
  intros Hm Hs st1 st2. subst st2 st1.
  rewrite (step_confirmManualLocation M st mlat mlng Hm).
  rewrite step_SubmitReport, submitReport_accepted by exact Hs.
  split; [reflexivity|]. eexists. cbn. repeat split.
Qed.

Lemma manual_confirm_accuracy_replaced_witness :
  let st1 := step smallAngle manualPickState ConfirmManualLocation in
  let st2 := step smallAngle st1 (SubmitReport 1700000000000 "10:00") in
  location st1 = (Some 14.70, Some 121.10, Some 0) /\
  exists r,
    reports (appState st2) = reports (appState manualPickState) ++ [r] /\
    Report.lat r = JsNum.orElse (Some 14.70) 14.5995 /\
    Report.lng r = JsNum.orElse (Some 121.10) 120.9842 /\
    Report.accuracy r = 15.
Proof.
  apply (manual_confirm_accuracy_replaced smallAngle manualPickState
           14.70 121.10 1700000000000 "10:00").
  - vm_compute. reflexivity.
  - vm_compute. reflexivity.
Defined.

(** C3: with nothing resolved the report carries (14.5995, 120.9842) and
    accuracy 15; but resolved values that are zero are replaced too, field
    by field: a fix on the equator loses its latitude, and a manually
    confirmed location loses its accuracy 0. *)
Theorem submitReport_defaults_per_field (M : MathHost) :
  map reportLocation
    (reports (appState
       (run M [StartReport; SelectSeverity "low";
               SubmitReport 1700000000000 "10:00"] initialState))) =
    [(14.5995, 120.9842, 15)] /\
  map reportLocation
    (reports (appState
       (run M [StartReport; GeoSuccess 0 109.3 10; SelectSeverity "low";
               SubmitReport 1700000000000 "10:00"] initialState))) =
    [(14.5995, 109.3, 10)] /\
  map reportLocation
    (reports (appState
       (run M [StartReport; OpenManualLocationPicker; DragMarker 14.70 121.10;
               ConfirmManualLocation; SelectSeverity "low";
               SubmitReport 1700000000000 "10:00"] initialState))) =
    [(14.70, 121.10, 15)].
Proof.
  repeat split; vm_compute; reflexivity.
Qed.

(** Resolved values that are all truthy are the ones a report carries. *)
Lemma submitReport_uses_truthy_location
    (now : Z) (time : string) (st : State) (la lo ac : float) :
  String.eqb (selectedSeverityLevel st) "" = false ->
  location st = (Some la, Some lo, Some ac) ->
  JsNum.truthy la = true -> JsNum.truthy lo = true -> JsNum.truthy ac = true ->
  exists r,
    reports (appState (snd (submitReport now time st))) =
      reports (appState st) ++ [r] /\
    reportLocation r = (la, lo, ac).
Proof.
  intros Hs Hl Hla Hlo Hac. rewrite submitReport_accepted by exact Hs.
  unfold location in Hl. inversion Hl as [[H1 H2 H3]].
  eexists. cbn. split; [reflexivity|].
  unfold reportLocation. cbn. rewrite H1, H2, H3.
  now rewrite !orElse_truthy.
Qed.

(** C4 (as amended): the success callback of the geolocation request
    writes unconditionally.  When it runs after [confirmManualLocation],
    with whatever happened in between, the stored location and accuracy
    are those of the GPS fix: the last write wins. *)
Theorem gps_callback_overwrites_manual
    (M : MathHost) (st : State) (mlat mlng : float) (evs : list Event)
    (k : nat) (la lo ac : float) :
  manualMarker st = Some (mlat, mlng) ->
  let st1 := step M st ConfirmManualLocation in
  let st2 := run M evs st1 in
  geoRequests (browser st2) = S k ->
  let st3 := step M st2 (GeoSuccess la lo ac) in
  location st1 = (Some mlat, Some mlng, Some 0) /\
  location st3 = (Some la, Some lo, Some ac).
Proof.
  intros Hm st1 st2 Hk st3. subst st3.
  rewrite (step_GeoSuccess M st2 k la lo ac Hk).
  subst st2 st1. rewrite (step_confirmManualLocation M st mlat mlng Hm).
  split; reflexivity.
Qed.

Lemma gps_callback_overwrites_manual_witness :
  let st1 := step smallAngle manualPickState ConfirmManualLocation in
  let st2 := run smallAngle [TypePeople "3"] st1 in
  let st3 := step smallAngle st2 (GeoSuccess 14.60 121.00 10) in
  location st1 = (Some 14.70, Some 121.10, Some 0) /\
  location st3 = (Some 14.60, Some 121.00, Some 10).
Proof.
  apply (gps_callback_overwrites_manual smallAngle manualPickState
           14.70 121.10 [TypePeople "3"] 0 14.60 121.00 10).
  - vm_compute. reflexivity.
  - vm_compute. reflexivity.
Defined.

(** C4, as stated, fails: the picker confirms (14.70, 121.10), the pending
    geolocation request then answers (14.60, 121.00) within 10 m, and the
    stored location and accuracy are the GPS ones. *)
Lemma late_gps_replaces_manual_location :
  location
    (run smallAngle
       [StartReport; OpenManualLocationPicker; DragMarker 14.70 121.10;
        ConfirmManualLocation; GeoSuccess 14.60 121.00 10]
       initialState) =
  (Some 14.60, Some 121.00, Some 10).
Proof.
  vm_compute. reflexivity.
Qed.

(** ** IncidentStore: lookups and the status write *)

Lemma findReport_app (id : Z) (rs l : list Report.t) (r : Report.t) :
  findReport id rs = Some r -> findReport id (rs ++ l) = Some r.
Proof.
  unfold findReport. induction rs as [|x rs IH]; cbn; [discriminate|].
  destruct (Report.id x =? id)%Z; auto.
Qed.

Lemma findReport_writeStatus_same (id : Z) (s : string) (rs : list Report.t) :
  findReport id (writeStatus id s rs) =
  option_map (Report.setStatus s) (findReport id rs).
Proof.
  unfold findReport. induction rs as [|x rs IH]; [reflexivity|].
  cbn. destruct (Report.id x =? id)%Z eqn:E; cbn; now rewrite E.
Qed.

Lemma findReport_writeStatus_other (id id' : Z) (s : string) (rs : list Report.t) :
  id' <> id ->
  findReport id' (writeStatus id s rs) = findReport id' rs.
Proof.
  intros Hne. unfold findReport. induction rs as [|x rs IH]; [reflexivity|].
  cbn. destruct (Report.id x =? id)%Z eqn:E; cbn.
  - apply Z.eqb_eq in E.
    assert ((Report.id x =? id')%Z = false) as -> by (apply Z.eqb_neq; congruence).
    reflexivity.
  - destruct (Report.id x =? id')%Z; [reflexivity | exact IH].
Qed.

Lemma writeStatus_idempotent (id : Z) (s : string) (rs : list Report.t) :
  writeStatus id s (writeStatus id s rs) = writeStatus id s rs.
Proof.
  induction rs as [|x rs IH]; [reflexivity|].
  cbn. destruct (Report.id x =? id)%Z eqn:E; cbn; rewrite E;
    [reflexivity | now rewrite IH].
Qed.

(** ** AdminTriage: rendering and dispatch in closed form *)

Lemma setAdminFeed_same (st : State) :
  setBrowser (setAdminFeed (adminFeed (browser st)) (browser st)) st = st.
Proof.
  destruct st as [a l m v k b]. destruct b. reflexivity.
Qed.

Lemma forEach_renderCard (M : MathHost) (rs : list Report.t) :
  forall st,
    forEach (renderCard M) rs st =
    (fst (renderCards M rs (adminFeed (browser st))),
     setBrowser
       (setAdminFeed (snd (renderCards M rs (adminFeed (browser st))))
          (browser st)) st).
Proof.
  induction rs as [|r rs IH]; intros st.
  - cbn. now rewrite setAdminFeed_same.
  - cbn [forEach renderCards]. unfold bind, renderCard.
    destruct (findNearestSite M evacuationSites (Report.lat r) (Report.lng r)).
    + unfold modifyBrowser, modify. rewrite IH. reflexivity.
    + cbn. now rewrite setAdminFeed_same.
Qed.

Lemma renderAdminFeed_eq (M : MathHost) (st : State) :
  renderAdminFeed M st =
  (fst (renderCards M (sortedReports (reports (appState st))) []),
   setBrowser
     (setAdminFeed (snd (renderCards M (sortedReports (reports (appState st))) []))
        (browser st)) st).
Proof.
  unfold renderAdminFeed, bind, modifyBrowser, modify, gets.
  rewrite forEach_renderCard. reflexivity.
Qed.

Lemma updateStatus_found (M : MathHost) (id : Z) (s : string) (st : State)
    (r : Report.t) :
  findReport id (reports (appState st)) = Some r ->
  updateStatus M id s st =
  let rs := writeStatus id s (reports (appState st)) in
  match fst (renderCards M (sortedReports rs) []) with
  | Normal _ => (Normal tt, alerted (dispatchedMessage id) (rendered M rs st))
  | Throw e => (Throw e, rendered M rs st)
  end.
Proof.
  intros H. unfold updateStatus, bind, gets. rewrite H.
  unfold modifyApp, modify. rewrite renderAdminFeed_eq. cbn [fst snd].
  cbn [appState setAppState reports setReports].
  destruct (fst (renderCards M _ [])) as [[]|e]; reflexivity.
Qed.

Lemma updateStatus_missing (M : MathHost) (id : Z) (s : string) (st : State) :
  findReport id (reports (appState st)) = None ->
  updateStatus M id s st = (Normal tt, st).
Proof.
  intros H. unfold updateStatus, bind, gets. now rewrite H.
Qed.

(** C1 (as amended): for the report a lookup by id returns with status
    PENDING, [updateStatus(id, "DISPATCHED")] makes its status DISPATCHED;
    a second identical call is not refused: it completes the way the
    first did, leaves the store and the rendered feed as the first left
    them (status still DISPATCHED) and, when the first call completed
    normally, shows the "Team dispatched" alert a second time.  For an id
    that is not in the store the call returns normally and changes
    nothing. *)
Theorem updateStatus_repeats_and_ignores_missing
    (M : MathHost) (id : Z) (st : State) :
  (statusOf id st = Some "PENDING"%string ->
   let r1 := updateStatus M id "DISPATCHED" st in
   let r2 := updateStatus M id "DISPATCHED" (snd r1) in
   statusOf id (snd r1) = Some "DISPATCHED"%string /\
   statusOf id (snd r2) = Some "DISPATCHED"%string /\
   fst r2 = fst r1 /\
   reports (appState (snd r2)) = reports (appState (snd r1)) /\
   adminFeed (browser (snd r2)) = adminFeed (browser (snd r1)) /\
   (fst r1 = Normal tt ->
    alerts (browser (snd r1)) =
      alerts (browser st) ++ [dispatchedMessage id] /\
    alerts (browser (snd r2)) =
      alerts (browser st) ++ [dispatchedMessage id; dispatchedMessage id])) /\
  (statusOf id st = None ->
   forall newStatus, updateStatus M id newStatus st = (Normal tt, st)).
Proof.
  unfold statusOf. split.
  - intros Hp.
    destruct (findReport id (reports (appState st))) as [r|] eqn:Hf;
      [|discriminate].
    cbn zeta. rewrite (updateStatus_found M id _ st r Hf). cbn zeta.
    set (rs := writeStatus id "DISPATCHED" (reports (appState st))).
    assert (Hf1 : findReport id rs = Some (Report.setStatus "DISPATCHED" r)).
    { unfold rs. now rewrite findReport_writeStatus_same, Hf. }
    assert (Hrs : writeStatus id "DISPATCHED" rs = rs).
    { apply writeStatus_idempotent. }
    destruct (fst (renderCards M (sortedReports rs) [])) as [[]|e] eqn:Hc;
      cbn [fst snd].
    + rewrite (updateStatus_found M id _
                 (alerted (dispatchedMessage id) (rendered M rs st)) _ Hf1).
      cbn [alerted rendered appState browser setBrowser setAppState reports
           setReports alerts adminFeed pushAlert setAdminFeed fst snd].
      rewrite Hrs, Hc.
      cbn [alerted rendered appState browser setBrowser setAppState reports
           setReports alerts adminFeed pushAlert setAdminFeed fst snd].
      rewrite Hf1. repeat split. now rewrite <- app_assoc.
    + rewrite (updateStatus_found M id _ (rendered M rs st) _ Hf1).
      cbn [rendered appState browser setBrowser setAppState reports
           setReports alerts adminFeed setAdminFeed fst snd].
      rewrite Hrs, Hc.
      cbn [rendered appState browser setBrowser setAppState reports
           setReports alerts adminFeed setAdminFeed fst snd].
      rewrite Hf1. repeat split; discriminate.
  - intros Hn newStatus. apply updateStatus_missing.
    destruct (findReport id (reports (appState st))); [discriminate|reflexivity].
Qed.

(** ** StatusNotifier: the polling interval *)

Lemma step_effect (M : MathHost) (st : State) (ev : Event) :
  Effect st (step M st ev).
Proof.
  destruct ev; unfold step, handle.
  all: try (apply EffNone; reflexivity).
  - (* ToggleRole *)
    unfold toggleRole, bind, gets.
    destruct (String.eqb _ _).
    + unfold modifyApp, modify. rewrite renderAdminFeed_eq.
      apply EffNone; reflexivity.
    + apply EffNone; reflexivity.
  - (* StartReport *)
    unfold startReport, bind, gets. destruct (geolocation _);
      apply EffNone; reflexivity.
  - (* GeoSuccess *)
    unfold bind, gets. destruct (geoRequests _); apply EffNone; reflexivity.
  - unfold bind, gets. destruct (geoRequests _); apply EffNone; reflexivity.
  - (* DragMarker *)
    unfold bind, gets. destruct (manualMarker _); apply EffNone; reflexivity.
  - (* ConfirmManualLocation *)
    unfold confirmManualLocation, bind, gets.
    destruct (manualMarker _) as [[]|]; apply EffNone; reflexivity.
  - (* RunSensorCheck *)
    apply EffAddTimer with SensorTimeout []; try reflexivity.
    + constructor.
    + unfold store. cbn. now rewrite app_nil_r.
  - (* SubmitReport *)
    destruct (String.eqb (selectedSeverityLevel st) "") eqn:E.
    + apply String.eqb_eq in E. rewrite submitReport_no_severity by exact E.
      apply EffNone; reflexivity.
    + rewrite submitReport_accepted by exact E.
      eapply EffAddTimer; try reflexivity.
      constructor; [split; reflexivity | constructor].
  - (* ClickDispatch *)
    unfold bind, gets. destruct (hasDispatchButton _ _).
    + destruct (findReport id (reports (appState st))) as [r|] eqn:Hf.
      * rewrite (updateStatus_found M id _ st r Hf). cbn zeta.
        destruct (fst (renderCards M _ [])) as [[]|e];
          apply EffDispatch with id; reflexivity.
      * rewrite updateStatus_missing by exact Hf. apply EffNone; reflexivity.
    + apply EffNone; reflexivity.
  - (* TimerFires *)
    unfold bind, gets.
    destruct (findTimer n (timers (browser st))) as [[|rid]|] eqn:Ht.
    + apply EffClear with n; reflexivity.
    + unfold onStatusInterval, bind, gets.
      destruct (findReport rid (reports (appState st))) as [r|] eqn:Hf.
      * destruct (String.eqb (Report.status r) "DISPATCHED") eqn:Hs.
        -- assert (Hd : dispatched rid st = true)
             by (unfold dispatched, statusOf; now rewrite Hf).
           unfold modifyBrowser, modify. cbn [browser setBrowser].
           cbn [stepDispatchedGray setDispatchedShown].
           destruct (stepDispatchedGray (browser st));
             apply EffNotify with n rid; try reflexivity; trivial;
             [left | right]; reflexivity.
        -- apply EffNone; reflexivity.
      * apply EffNone; reflexivity.
    + apply EffNone; reflexivity.
Qed.

Lemma dispatched_store (id : Z) (st st' : State) :
  store st' = store st -> dispatched id st' = dispatched id st.
Proof.
  unfold dispatched, statusOf, store. now intros ->.
Qed.

Lemma dispatched_app (id : Z) (st st' : State) (l : list Report.t) :
  store st' = store st ++ l ->
  dispatched id st = true -> dispatched id st' = true.
Proof.
  unfold dispatched, statusOf, store. intros ->.
  destruct (findReport id (reports (appState st))) as [r|] eqn:Hf;
    [|discriminate].
  now rewrite (findReport_app id _ l r Hf).
Qed.

Lemma dispatched_writeStatus (id id' : Z) (st st' : State) :
  store st' = writeStatus id' "DISPATCHED" (store st) ->
  dispatched id st = true -> dispatched id st' = true.
Proof.
  unfold dispatched, statusOf, store. intros ->.
  destruct (Z.eq_dec id id') as [->|Hne].
  - rewrite findReport_writeStatus_same.
    destruct (findReport id' (reports (appState st))); [reflexivity|discriminate].
  - now rewrite findReport_writeStatus_other.
Qed.

Lemma dropTimer_incl (n : nat) (ts : list (nat * Timer)) (k : nat) :
  In k (map fst (dropTimer n ts)) -> In k (map fst ts) /\ k <> n.
Proof.
  unfold dropTimer. rewrite !in_map_iff.
  intros (p & <- & Hin). apply filter_In in Hin as [Hin Hne].
  split; [now exists p|].
  apply negb_true_iff in Hne. now apply Nat.eqb_neq in Hne.
Qed.


Lemma findTimer_In (n : nat) (ts : list (nat * Timer)) (t : Timer) :
  findTimer n ts = Some t -> In n (map fst ts).
Proof.
  unfold findTimer. destruct (find _ ts) as [p|] eqn:Hf; [|discriminate].
  intros _. apply find_some in Hf as [Hin Heq].
  apply Nat.eqb_eq in Heq. subst n. now apply in_map.
Qed.

Lemma findTimer_absent (n : nat) (ts : list (nat * Timer)) :
  ~ In n (map fst ts) -> findTimer n ts = None.
Proof.
  intros H. destruct (findTimer n ts) as [t|] eqn:Hf; [|reflexivity].
  now apply findTimer_In in Hf.
Qed.




(** The interval callback on a DISPATCHED report, by the state of the grey
    marker. *)
Lemma onStatusInterval_dispatched (n : nat) (rid : Z) (st : State) :
  dispatched rid st = true ->
  onStatusInterval n rid st =
  let st1 :=
    setBrowser
      (setDispatchedShown (dispatchedShown (browser st) ++ [(n, rid)])
         (browser st)) st in
  if stepDispatchedGray (browser st) then
    (Normal tt,
     setBrowser
       (clearTimer n (setStepDispatchedGray false (browser st1))) st1)
  else (Throw TypeError, st1).
Proof.
  unfold dispatched, statusOf. intros Hd.
  unfold onStatusInterval, bind, gets.
  destruct (findReport rid (reports (appState st))) as [r|]; [|discriminate].
  cbn in Hd. rewrite Hd. unfold modifyBrowser, modify.
  cbn [browser setBrowser stepDispatchedGray setDispatchedShown].
  destruct (stepDispatchedGray (browser st)); reflexivity.
Qed.

Lemma step_TimerFires_pending (M : MathHost) (st : State) (n : nat) (rid : Z) :
  findTimer n (watches st) = Some (StatusInterval rid) ->
  dispatched rid st = false ->
  step M st (TimerFires n) = st.
Proof.
  unfold watches, dispatched, statusOf. intros Ht Hd.
  unfold step, handle, bind, gets. rewrite Ht.
  unfold onStatusInterval, bind, gets.
  destruct (findReport rid (reports (appState st))) as [r|]; [|reflexivity].
  cbn in Hd. rewrite Hd. reflexivity.
Qed.

(** C9: the interval callback clears its interval only while the grey
    marker of the "dispatched" step is in place, and takes the marker off.
    So the first interval that sees its report DISPATCHED updates the
    status view once and is cleared; every interval that sees DISPATCHED
    after that updates the status view, throws a TypeError before
    [clearInterval] and stays registered, and does so again at each
    tick. *)
Theorem status_watch_renotifies
    (M : MathHost) (st : State) (n : nat) (rid : Z) :
  findTimer n (watches st) = Some (StatusInterval rid) ->
  dispatched rid st = true ->
  let st' := step M st (TimerFires n) in
  shown st' = shown st ++ [(n, rid)] /\
  stepDispatchedGray (browser st') = false /\
  (stepDispatchedGray (browser st) = true ->
   fst (handle M (TimerFires n) st) = Normal tt /\
   findTimer n (watches st') = None) /\
  (stepDispatchedGray (browser st) = false ->
   fst (handle M (TimerFires n) st) = Throw TypeError /\
   watches st' = watches st /\
   shown (step M st' (TimerFires n)) = shown st ++ [(n, rid); (n, rid)]).
Proof.
  intros Ht Hd st'.
  assert (Hh : handle M (TimerFires n) st = onStatusInterval n rid st).
  { unfold handle, bind, gets. unfold watches in Ht. now rewrite Ht. }
  subst st'. unfold step at 1 2 3 4. rewrite !Hh.
  rewrite (onStatusInterval_dispatched n rid st Hd). cbn zeta.
  destruct (stepDispatchedGray (browser st)) eqn:Hg; cbn [fst snd].
  - split; [reflexivity|]. split; [reflexivity|]. split; [|discriminate].
    intros _. split; [reflexivity|].
    unfold watches. cbn [browser setBrowser clearTimer setTimers timers].
    apply findTimer_absent. intros H. now apply dropTimer_incl in H as [_ H].
  - split; [reflexivity|]. split; [exact Hg|]. split; [discriminate|].
    intros _. split; [reflexivity|]. split; [reflexivity|].
    set (st1 := setBrowser
                  (setDispatchedShown
                     (dispatchedShown (browser st) ++ [(n, rid)]) (browser st))
                  st).
    assert (Ht1 : findTimer n (watches st1) = Some (StatusInterval rid))
      by exact Ht.
    assert (Hd1 : dispatched rid st1 = true) by exact Hd.
    unfold step.
    assert (Hh1 : handle M (TimerFires n) st1 = onStatusInterval n rid st1).
    { unfold handle, bind, gets. unfold watches in Ht1. now rewrite Ht1. }
    rewrite Hh, (onStatusInterval_dispatched n rid st Hd). cbn zeta.
    rewrite Hg. cbn [snd]. fold st1.
    rewrite Hh1, (onStatusInterval_dispatched n rid st1 Hd1). cbn zeta.
    assert (Hg1 : stepDispatchedGray (browser st1) = false) by exact Hg.
    rewrite Hg1. cbn [snd]. unfold shown, st1.
    cbn [browser setBrowser dispatchedShown setDispatchedShown].
    now rewrite <- app_assoc.
Qed.

Lemma status_watch_renotifies_witness :
  let st := run smallAngle [TimerFires 0] twoDispatched in
  let st' := step smallAngle st (TimerFires 1) in
  shown st' = shown st ++ [(1%nat, 1700000000002%Z)] /\
  stepDispatchedGray (browser st') = false /\
  (stepDispatchedGray (browser st) = true ->
   fst (handle smallAngle (TimerFires 1) st) = Normal tt /\
   findTimer 1 (watches st') = None) /\
  (stepDispatchedGray (browser st) = false ->
   fst (handle smallAngle (TimerFires 1) st) = Throw TypeError /\
   watches st' = watches st /\
   shown (step smallAngle st' (TimerFires 1)) =
     shown st ++ [(1%nat, 1700000000002%Z); (1%nat, 1700000000002%Z)]).
Proof.
  apply (status_watch_renotifies smallAngle
           (run smallAngle [TimerFires 0] twoDispatched) 1 1700000000002).
  - vm_compute. reflexivity.
  - vm_compute. reflexivity.
Defined.

(** The run behind it: two reports submitted and dispatched, the first
    interval polls once and the second twice.  The first has shown the
    dispatch once and is gone; the second has shown it twice and is still
    registered. *)
Lemma second_watch_leaks :
  let st := run smallAngle [TimerFires 0; TimerFires 1; TimerFires 1]
              twoDispatched in
  shown st =
    [(0%nat, 1700000000001%Z); (1%nat, 1700000000002%Z);
     (1%nat, 1700000000002%Z)] /\
  watches st = [(1%nat, StatusInterval 1700000000002)].
Proof.
  vm_compute. split; reflexivity.
Qed.

(** A report that is never dispatched is polled for ever: after three
    polls its interval has shown nothing and is still registered. *)
Lemma undispatched_watch_keeps_polling :
  let st :=
    run smallAngle
      [SelectSeverity "high"; SubmitReport 1700000000000 "10:00";
       TimerFires 0; TimerFires 0; TimerFires 0]
      initialState in
  shown st = [] /\ watches st = [(0%nat, StatusInterval 1700000000000)].
Proof.
  vm_compute. split; reflexivity.
Qed.

(** ** Witnesses and counterexamples on the scenarios *)

Lemma updateStatus_repeats_and_ignores_missing_witness :
  let id := 1700000000000%Z in
  let r1 := updateStatus smallAngle id "DISPATCHED" pendingStore in
  let r2 := updateStatus smallAngle id "DISPATCHED" (snd r1) in
  (statusOf id (snd r1) = Some "DISPATCHED"%string /\
   statusOf id (snd r2) = Some "DISPATCHED"%string /\
   fst r2 = fst r1 /\
   reports (appState (snd r2)) = reports (appState (snd r1)) /\
   adminFeed (browser (snd r2)) = adminFeed (browser (snd r1)) /\
   (fst r1 = Normal tt ->
    alerts (browser (snd r1)) =
      alerts (browser pendingStore) ++ [dispatchedMessage id] /\
    alerts (browser (snd r2)) =
      alerts (browser pendingStore) ++
      [dispatchedMessage id; dispatchedMessage id])) /\
  (forall newStatus,
     updateStatus smallAngle 42 newStatus pendingStore =
     (Normal tt, pendingStore)).
Proof.
  split.
  - apply (proj1 (updateStatus_repeats_and_ignores_missing smallAngle
                    1700000000000 pendingStore)).
    vm_compute. reflexivity.
  - apply (proj2 (updateStatus_repeats_and_ignores_missing smallAngle
                    42 pendingStore)).
    vm_compute. reflexivity.
Defined.

(** C1, as stated, fails: on a store holding one PENDING report the second
    identical call completes normally and alerts "Team dispatched" again,
    and a call with an id that is not in the store completes normally too,
    leaving the state as it was. *)
Lemma second_dispatch_and_missing_id_complete_normally :
  let id := 1700000000000%Z in
  let r1 := updateStatus smallAngle id "DISPATCHED" pendingStore in
  let r2 := updateStatus smallAngle id "DISPATCHED" (snd r1) in
  statusOf id pendingStore = Some "PENDING"%string /\
  fst r1 = Normal tt /\
  fst r2 = Normal tt /\
  alerts (browser (snd r2)) =
    ["Team dispatched to Incident #1700000000000"%string;
     "Team dispatched to Incident #1700000000000"%string] /\
  statusOf 42 pendingStore = None /\
  updateStatus smallAngle 42 "DISPATCHED" pendingStore =
    (Normal tt, pendingStore).
Proof.
  vm_compute. repeat split; reflexivity.
Qed.


(** ** Further properties of the store and the feed *)

Lemma withUrgency_none (u : Urgency) (l : list Report.t) :
  Forall (fun r => urgencyEqb (Report.urgency r) u = false) l ->
  withUrgency u l = [].
Proof.
  induction 1 as [|r l Hr _ IH]; [reflexivity|].
  now rewrite withUrgency_cons, Hr.
Qed.

Lemma rank_sorted_is_classes (l : list Report.t) :
  StronglySorted rankGe l ->
  l = withUrgency Critical l ++ withUrgency Moderate l ++ withUrgency Low l.
Proof.
  induction 1 as [|x l _ IH Hx]; [reflexivity|].
  rewrite !withUrgency_cons.
  destruct (Report.urgency x) eqn:Hu; cbn [urgencyEqb].
  - cbn [app]. now f_equal.
  - assert (HC : withUrgency Critical l = []).
    { apply withUrgency_none. eapply Forall_impl; [|exact Hx]. cbn beta.
      intros y Hy. unfold rankGe in Hy. rewrite Hu in Hy.
      destruct (Report.urgency y); cbn in *; trivial; lia. }
    rewrite HC in *. cbn [app] in *. now f_equal.
  - assert (HC : withUrgency Critical l = []).
    { apply withUrgency_none. eapply Forall_impl; [|exact Hx]. cbn beta.
      intros y Hy. unfold rankGe in Hy. rewrite Hu in Hy.
      destruct (Report.urgency y); cbn in *; trivial; lia. }
    assert (HM : withUrgency Moderate l = []).
    { apply withUrgency_none. eapply Forall_impl; [|exact Hx]. cbn beta.
      intros y Hy. unfold rankGe in Hy. rewrite Hu in Hy.
      destruct (Report.urgency y); cbn in *; trivial; lia. }
    rewrite HC, HM in *. cbn [app] in *. now f_equal.
Qed.

(** The feed order does not depend on how the host sorts: any arrangement
    that is in descending rank order and keeps each urgency class in store
    order is the list [sortedReports] returns. *)
Theorem stable_rank_order_unique (rs l : list Report.t) :
  StronglySorted rankGe l ->
  (forall u, withUrgency u l = withUrgency u rs) ->
  l = sortedReports rs.
Proof.
  intros Hs Hst. rewrite sortedReports_classes, <- !Hst.
  now apply rank_sorted_is_classes.
Qed.

Lemma stable_rank_order_unique_witness :
  exists R1 R2 R3 R4,
    fourReports = [R1; R2; R3; R4] /\
    [R2; R3; R4; R1] = sortedReports [R1; R2; R3; R4].
Proof.
  do 4 eexists. split; [vm_compute; reflexivity|].
  apply stable_rank_order_unique.
  - repeat constructor; vm_compute; discriminate.
  - intros []; vm_compute; reflexivity.
Defined.

Lemma writeStatus_wellFormed (id : Z) (rs : list Report.t) :
  Forall wellFormed rs -> Forall wellFormed (writeStatus id "DISPATCHED" rs).
Proof.
  induction 1 as [|r rs Hr Hrs IH]; [constructor|].
  cbn. destruct (Report.id r =? id)%Z.
  - constructor; [|exact Hrs].
    destruct Hr as [Hu _]. split; [exact Hu | now right].
  - constructor; [exact Hr | exact IH].
Qed.

Lemma effect_wellFormed (st st' : State) :
  Effect st st' -> Forall wellFormed (store st) -> Forall wellFormed (store st').
Proof.
  intros [Hs _ _ _ | t l Hl Hs _ _ _ | id Hs _ _ _ | n Hs _ _ _
         | n rid _ _ Hs _ _ _] H; rewrite Hs; trivial.
  - apply Forall_app. split; [exact H|].
    eapply Forall_impl; [|exact Hl]. intros r [Hu Hp].
    split; [exact Hu | now left].
  - now apply writeStatus_wellFormed.
Qed.

(** In every run from the initial state each stored report has the urgency
    its severity maps to and a status that is PENDING or DISPATCHED. *)
Theorem reports_well_formed (M : MathHost) (evs : list Event) :
  Forall wellFormed (store (run M evs initialState)).
Proof.
  assert (H : forall st, Forall wellFormed (store st) ->
                         Forall wellFormed (store (run M evs st))).
  { unfold run. induction evs as [|ev evs IH]; intros st Hst; [exact Hst|].
    cbn. apply IH. apply (effect_wellFormed st); [apply step_effect|exact Hst]. }
  apply H. constructor.
Qed.

Lemma effect_dispatched (st st' : State) (id : Z) :
  Effect st st' -> dispatched id st = true -> dispatched id st' = true.
Proof.
  intros [Hs _ _ _ | t l _ Hs _ _ _ | id' Hs _ _ _ | n Hs _ _ _
         | n rid _ _ Hs _ _ _] H.
  - now rewrite (dispatched_store id st st' Hs).
  - now apply (dispatched_app id st st' l).
  - now apply (dispatched_writeStatus id id' st st').
  - now rewrite (dispatched_store id st st' Hs).
  - now rewrite (dispatched_store id st st' Hs).
Qed.

(** DISPATCHED is final: no sequence of events takes a dispatched report
    back, whatever else is submitted or dispatched meanwhile. *)
Theorem dispatched_is_final
    (M : MathHost) (evs : list Event) (st : State) (id : Z) :
  dispatched id st = true -> dispatched id (run M evs st) = true.
Proof.
  unfold run. revert st. induction evs as [|ev evs IH]; intros st H; [exact H|].
  cbn. apply IH. apply (effect_dispatched st); [apply step_effect|exact H].
Qed.

Lemma dispatched_is_final_witness :
  dispatched 1700000000000
    (run smallAngle
       [ClickDispatch 1700000000000; SelectSeverity "low";
        SubmitReport 1700000000000 "10:05"; ToggleRole; ToggleRole;
        ClickDispatch 1700000000000]
       (step smallAngle pendingStore (ClickDispatch 1700000000000))) = true.
Proof.
  apply dispatched_is_final. vm_compute. reflexivity.
Defined.

Lemma renderCards_reports (M : MathHost) (rs : list Report.t) :
  forall feed,
    exists rest,
      map cardReport feed ++ rs =
        map cardReport (snd (renderCards M rs feed)) ++ rest /\
      (fst (renderCards M rs feed) = Normal tt -> rest = []).
Proof.
  induction rs as [|r rs IH]; intros feed.
  - exists []. split; reflexivity.
  - cbn [renderCards].
    destruct (findNearestSite M evacuationSites (Report.lat r) (Report.lng r))
      as [site|].
    + destruct (IH (feed ++ [mkCard r (Report.accuracy r <=? 20) site
                               (actionButtonOf r) (validationDisplayOf r)]))
        as (rest & Heq & Hn).
      exists rest. split; [|exact Hn].
      rewrite <- Heq, map_app, <- app_assoc. reflexivity.
    + exists (r :: rs). split; [reflexivity | discriminate].
Qed.

(** C5: the reports of the cards [renderAdminFeed] leaves in the feed are
    in urgency rank order (Critical 3, Moderate 2, Low 1), never a lower
    rank before a higher one, and of each urgency they are an initial part
    of the store's reports of that urgency, in insertion order; when the
    rendering completes, the feed is a rearrangement of the whole store
    that keeps the reports of each urgency in their insertion order, and
    for a store [R1(low), R2(high), R3(high), R4(med)] the feed order is
    [R2, R3, R4, R1]. *)
Theorem renderAdminFeed_rank_descending_stable (M : MathHost) (st : State) :
  let feed := feedReports (snd (renderAdminFeed M st)) in
  store (snd (renderAdminFeed M st)) = store st /\
  StronglySorted rankGe feed /\
  (forall u, exists rest,
     withUrgency u (store st) = withUrgency u feed ++ rest) /\
  (fst (renderAdminFeed M st) = Normal tt ->
   Permutation (store st) feed /\
   (forall u, withUrgency u feed = withUrgency u (store st)) /\
   (forall R1 R2 R3 R4,
      store st = [R1; R2; R3; R4] ->
      Report.urgency R1 = urgencyOf "low" ->
      Report.urgency R2 = urgencyOf "high" ->
      Report.urgency R3 = urgencyOf "high" ->
      Report.urgency R4 = urgencyOf "med" ->
      feed = [R2; R3; R4; R1])).
Proof.
  cbn zeta. unfold feedReports, store.
  rewrite renderAdminFeed_eq. cbn [fst snd].
  destruct (renderCards_reports M (sortedReports (reports (appState st))) [])
    as (rest & Heq & Hn).
  cbn [map app] in Heq.
  destruct (sortedReports_stable (reports (appState st)))
    as (Hperm & Hsorted & Hstable).
  assert (Hfeed :
    map cardReport
      (adminFeed (browser
         (setBrowser
            (setAdminFeed
               (snd (renderCards M (sortedReports (reports (appState st))) []))
               (browser st)) st))) =
    map cardReport
      (snd (renderCards M (sortedReports (reports (appState st))) []))).
  { destruct st as [a l m v k b]. destruct b. reflexivity. }
  rewrite Hfeed. clear Hfeed.
  set (feed := map cardReport
                 (snd (renderCards M (sortedReports (reports (appState st))) [])))
    in *.
  set (sorted := sortedReports (reports (appState st))) in *.
  split; [destruct st as [a l m v k b]; reflexivity|].
  split; [|split].
  - apply StronglySorted_prefix with rest. now rewrite <- Heq.
  - intros u. exists (withUrgency u rest).
    now rewrite <- (Hstable u), Heq, withUrgency_app.
  - intros Hnormal. rewrite (Hn Hnormal), app_nil_r in Heq.
    rewrite <- Heq. split; [exact Hperm | split; [exact Hstable|]].
    intros R1 R2 R3 R4 E H1 H2 H3 H4. subst sorted. rewrite E.
    now apply sortedReports_four.
Qed.

Lemma renderAdminFeed_rank_descending_stable_witness :
  exists R1 R2 R3 R4,
    store fourReportsState = [R1; R2; R3; R4] /\
    fst (renderAdminFeed smallAngle fourReportsState) = Normal tt /\
    feedReports fourReportsState = [] /\
    feedReports (snd (renderAdminFeed smallAngle fourReportsState)) =
      [R2; R3; R4; R1].
Proof.
  do 4 eexists.
  split; [vm_compute; reflexivity|].
  split; [vm_compute; reflexivity|].
  split; [vm_compute; reflexivity|].
  apply (proj2 (proj2 (proj2 (renderAdminFeed_rank_descending_stable
                                smallAngle fourReportsState)))).
  - vm_compute. reflexivity.
  - vm_compute. reflexivity.
  - reflexivity.
  - reflexivity.
  - reflexivity.
  - reflexivity.
Defined.

(** The cards [renderAdminFeed] leaves in the container are those of an
    initial part of [sortedReports], in that order, and of all of it when
    the rendering completes normally. *)
Theorem renderAdminFeed_order (M : MathHost) (st : State) :
  exists rest,
    sortedReports (reports (appState st)) =
      map cardReport (adminFeed (browser (snd (renderAdminFeed M st)))) ++ rest /\
    (fst (renderAdminFeed M st) = Normal tt -> rest = []).
Proof.
  rewrite renderAdminFeed_eq. cbn [fst snd].
  destruct (renderCards_reports M (sortedReports (reports (appState st))) [])
    as (rest & Heq & Hn).
  exists rest. split; [|exact Hn].
  destruct st as [a l m v k b]. destruct b. exact Heq.
Qed.

(** ** GeoMath: NaN, null and growing site lists *)

Lemma sub_nan_l (y : float) : nan - y = nan.
Proof.
  apply Prim2SF_inj. rewrite sub_spec. reflexivity.
Qed.

Lemma add_nan_r (x : float) : x + nan = nan.
Proof.
  apply Prim2SF_inj. rewrite add_spec.
  change (Prim2SF nan) with S754_nan. now destruct (Prim2SF x).
Qed.

Lemma mul_nan_r (x : float) : x * nan = nan.
Proof.
  apply Prim2SF_inj. rewrite mul_spec.
  change (Prim2SF nan) with S754_nan. now destruct (Prim2SF x).
Qed.

Lemma getDistance_nan_dLat (M : MathHost) (lat1 lon1 lat2 lon2 : float) :
  lat2 - lat1 = nan -> getDistance M lat1 lon1 lat2 lon2 = nan.
Proof.
  intros H. unfold getDistance, deg2rad. cbv zeta. rewrite H.
  change (nan * (PI / 180) / 2) with nan.
  rewrite sin_nan. change (nan * nan) with nan.
  rewrite add_nan_l. change (sqrt nan) with nan.
  rewrite atan2_nan_l. reflexivity.
Qed.

Lemma getDistance_nan_dLon (M : MathHost) (lat1 lon1 lat2 lon2 : float) :
  lon2 - lon1 = nan -> getDistance M lat1 lon1 lat2 lon2 = nan.
Proof.
  intros H. unfold getDistance, deg2rad. cbv zeta. rewrite H.
  change (nan * (PI / 180) / 2) with nan.
  rewrite sin_nan, mul_nan_r. change (nan * nan) with nan.
  rewrite add_nan_r. change (sqrt nan) with nan.
  rewrite atan2_nan_l. reflexivity.
Qed.

(** [getDistance] is NaN as soon as one of its four arguments is, on every
    host. *)
Theorem getDistance_nan_any (M : MathHost) (a b c : float) :
  getDistance M nan a b c = nan /\
  getDistance M a nan b c = nan /\
  getDistance M a b nan c = nan /\
  getDistance M a b c nan = nan.
Proof.
  repeat split.
  - apply getDistance_nan_dLat, sub_nan_r.
  - apply getDistance_nan_dLon, sub_nan_r.
  - apply getDistance_nan_dLat, sub_nan_l.
  - apply getDistance_nan_dLon, sub_nan_l.
Qed.

(** [findNearestSite] returns [null] exactly when no site has a distance
    below Infinity. *)
Theorem findNearestSite_null_iff
    (M : MathHost) (sites : list Site.t) (lat lng : float) :
  findNearestSite M sites lat lng = None <->
  forallb (fun s => negb (distanceTo M lat lng s <? infinity)) sites = true.
Proof.
  rewrite forallb_forall.
  destruct (findNearestSite_cases M lat lng sites)
    as [[Hn Hall] | (i & s & Hi & Hr & Hlt & _)].
  - split; [|now intros _]. intros _ x Hx.
    rewrite Forall_forall in Hall. now rewrite (Hall x Hx).
  - rewrite Hr. split; [discriminate|]. intros H.
    apply nth_error_In in Hi. apply H in Hi. now rewrite Hlt in Hi.
Qed.

(** A site [findNearestSite] returns is one of the list, its distance is a
    number below Infinity and neither of its coordinates is NaN; a site
    with a NaN coordinate is never chosen. *)
Theorem findNearestSite_result_sound
    (M : MathHost) (sites : list Site.t) (lat lng : float) (s : Site.t) :
  findNearestSite M sites lat lng = Some s ->
  In s sites /\
  (distanceTo M lat lng s <? infinity) = true /\
  JsNum.isNaN (Site.lat s) = false /\
  JsNum.isNaN (Site.lng s) = false.
Proof.
  intros H.
  destruct (findNearestSite_cases M lat lng sites)
    as [[Hn _] | (i & s' & Hi & Hr & Hlt & _)]; [congruence|].
  assert (s' = s) as -> by congruence.
  split; [now apply nth_error_In with i|]. split; [exact Hlt|].
  unfold distanceTo in Hlt.
  split.
  - destruct (JsNum.isNaN (Site.lat s)) eqn:E; [|reflexivity].
    apply isNaN_true_iff in E. rewrite E in Hlt.
    rewrite (getDistance_nan_dLat M _ _ _ _ (sub_nan_l lat)), nan_ltb in Hlt.
    discriminate.
  - destruct (JsNum.isNaN (Site.lng s)) eqn:E; [|reflexivity].
    apply isNaN_true_iff in E. rewrite E in Hlt.
    rewrite (getDistance_nan_dLon M _ _ _ _ (sub_nan_l lng)), nan_ltb in Hlt.
    discriminate.
Qed.

Lemma findNearestSite_result_sound_witness :
  In (Site.mk "Evacuation Site 1" 14.6 121.0) evacuationSites /\
  (distanceTo smallAngle 14.5995 120.9842
     (Site.mk "Evacuation Site 1" 14.6 121.0) <? infinity) = true /\
  JsNum.isNaN 14.6 = false /\
  JsNum.isNaN 121.0 = false.
Proof.
  apply (findNearestSite_result_sound smallAngle evacuationSites
           14.5995 120.9842 (Site.mk "Evacuation Site 1" 14.6 121.0)).
  vm_compute. reflexivity.
Defined.

Lemma scan_result (M : MathHost) (lat lng : float) (sites : list Site.t) :
  fold_left (scanSite M lat lng) sites (None, infinity) =
  match findNearestSite M sites lat lng with
  | None => (None, infinity)
  | Some s => (Some s, distanceTo M lat lng s)
  end.
Proof.
  unfold findNearestSite.
  destruct (scan_inv M lat lng sites (None, infinity))
    as [[Hr _] | (i & s & _ & Hr & _)]; now rewrite Hr.
Qed.

(** Adding a site at the end of the list changes the answer only when the
    new site is strictly nearer than the current one (or is the first with
    a distance below Infinity); at equal distance the earlier site stays. *)
Theorem findNearestSite_append
    (M : MathHost) (sites : list Site.t) (x : Site.t) (lat lng : float) :
  findNearestSite M (sites ++ [x]) lat lng =
  match findNearestSite M sites lat lng with
  | None => if distanceTo M lat lng x <? infinity then Some x else None
  | Some s =>
      if distanceTo M lat lng x <? distanceTo M lat lng s then Some x
      else Some s
  end.
Proof.
  unfold findNearestSite at 1. rewrite fold_left_app. cbn [fold_left].
  rewrite scan_result, scanSite_eq.
  destruct (findNearestSite M sites lat lng) as [s|]; cbn [snd];
    match goal with |- context [if ?b then _ else _] => destruct b end;
    reflexivity.
Qed.

(** ** IncidentStore: frames and lookups *)

Lemma writeStatus_eraseStatus (id : Z) (s : string) (rs : list Report.t) :
  map eraseStatus (writeStatus id s rs) = map eraseStatus rs.
Proof.
  induction rs as [|r rs IH]; [reflexivity|].
  cbn. destruct (Report.id r =? id)%Z; cbn; [reflexivity | now rewrite IH].
Qed.

Lemma updateStatus_state (M : MathHost) (id : Z) (s : string) (st : State) :
  exists rs feed al,
    map eraseStatus rs = map eraseStatus (reports (appState st)) /\
    snd (updateStatus M id s st) =
    mkState
      (setReports rs (appState st))
      (selectedSeverityLevel st) (currentVerificationMode st)
      (sensorVerified st) (manualMarker st)
      (mkBrowser (peopleCount (browser st)) (fileInputFiles (browser st))
         feed (dispatchedShown (browser st)) al (geolocation (browser st))
         (geoRequests (browser st)) (timers (browser st))
         (nextTimer (browser st)) (stepDispatchedGray (browser st))).
Proof.
  destruct (findReport id (reports (appState st))) as [r|] eqn:Hf.
  - rewrite (updateStatus_found M id s st r Hf). cbn zeta.
    exists (writeStatus id s (reports (appState st))).
    destruct (fst (renderCards M _ [])) as [[]|e]; cbn [snd];
      do 2 eexists; (split; [apply writeStatus_eraseStatus | reflexivity]).
  - rewrite (updateStatus_missing M id s st Hf). cbn [snd].
    exists (reports (appState st)), (adminFeed (browser st)),
      (alerts (browser st)).
    split; [reflexivity|].
    destruct st as [[] ? ? ? ? []]. reflexivity.
Qed.

Lemma writeStatus_split (id : Z) (s : string) (rs : list Report.t) (r : Report.t) :
  findReport id rs = Some r ->
  exists pre post,
    rs = pre ++ r :: post /\
    Report.id r = id /\
    Forall (fun p => Report.id p <> id) pre /\
    writeStatus id s rs = pre ++ Report.setStatus s r :: post.
Proof.
  unfold findReport. induction rs as [|x rs IH]; [discriminate|].
  cbn [find writeStatus]. destruct (Report.id x =? id)%Z eqn:E.
  - intros [= ->]. exists [], rs. apply Z.eqb_eq in E.
    repeat split; trivial.
  - intros Hf. destruct (IH Hf) as (pre & post & -> & Hid & Hpre & Hw).
    exists (x :: pre), post. cbn [app]. rewrite Hw.
    repeat split; trivial.
    constructor; [now apply Z.eqb_neq | exact Hpre].
Qed.

(** [updateStatus] touches at most one status, the rendered feed and the
    alerts and nothing else: either no report has the id and the store is
    as it was, or the store differs only in the status of the first report
    with the id; it keeps its reports in their order and every field of
    them but the status, and the location, the form variables, the form
    inputs and the timers are as before. *)
Theorem updateStatus_frame (M : MathHost) (id : Z) (s : string) (st : State) :
  let st' := snd (updateStatus M id s st) in
  ((findReport id (store st) = None /\ store st' = store st) \/
   (exists pre r post,
      store st = pre ++ r :: post /\
      Report.id r = id /\
      Forall (fun p => Report.id p <> id) pre /\
      store st' = pre ++ Report.setStatus s r :: post)) /\
  map eraseStatus (reports (appState st')) =
    map eraseStatus (reports (appState st)) /\
  List.length (reports (appState st')) = List.length (reports (appState st)) /\
  location st' = location st /\
  currentView (appState st') = currentView (appState st) /\
  selectedSeverityLevel st' = selectedSeverityLevel st /\
  currentVerificationMode st' = currentVerificationMode st /\
  sensorVerified st' = sensorVerified st /\
  manualMarker st' = manualMarker st /\
  peopleCount (browser st') = peopleCount (browser st) /\
  fileInputFiles (browser st') = fileInputFiles (browser st) /\
  timers (browser st') = timers (browser st) /\
  dispatchedShown (browser st') = dispatchedShown (browser st).
Proof.
  cbn zeta. split.
  - unfold store.
    destruct (findReport id (reports (appState st))) as [r|] eqn:Hf.
    + right.
      destruct (writeStatus_split id s _ r Hf) as (pre & post & E & Hid & Hpre & Hw).
      exists pre, r, post. repeat split; trivial.
      rewrite (updateStatus_found M id s st r Hf). cbn zeta.
      rewrite <- Hw.
      destruct (fst (renderCards M _ [])) as [[]|e]; reflexivity.
    + left. split; [reflexivity|].
      now rewrite (updateStatus_missing M id s st Hf).
  - destruct (updateStatus_state M id s st) as (rs & feed & al & He & ->).
    cbn. repeat split; trivial.
    rewrite <- (length_map eraseStatus rs), He. apply length_map.
Qed.

Lemma updateStatus_store
    (M : MathHost) (id : Z) (s : string) (st : State) (r : Report.t) :
  findReport id (reports (appState st)) = Some r ->
  reports (appState (snd (updateStatus M id s st))) =
  writeStatus id s (reports (appState st)).
Proof.
  intros Hf. rewrite (updateStatus_found M id s st r Hf). cbn zeta.
  destruct (fst (renderCards M _ [])) as [[]|e]; reflexivity.
Qed.

(** After [updateStatus(id, s)] on an id that is in the store, a lookup by
    that id gives status [s], whatever [s] and the former status are, and
    the status found under any other id is unchanged. *)
Theorem updateStatus_then_lookup
    (M : MathHost) (id : Z) (s : string) (st : State) (r : Report.t) :
  findReport id (reports (appState st)) = Some r ->
  let st' := snd (updateStatus M id s st) in
  statusOf id st' = Some s /\
  forall id', id' <> id -> statusOf id' st' = statusOf id' st.
Proof.
  intros Hf st'. subst st'. unfold statusOf.
  rewrite (updateStatus_store M id s st r Hf). split.
  - now rewrite findReport_writeStatus_same, Hf.
  - intros id' Hne. now rewrite findReport_writeStatus_other.
Qed.

Lemma updateStatus_then_lookup_witness :
  let st' := snd (updateStatus smallAngle 1700000000000 "PENDING"
                    (step smallAngle pendingStore (ClickDispatch 1700000000000))) in
  statusOf 1700000000000 st' = Some "PENDING"%string /\
  forall id', id' <> 1700000000000%Z ->
    statusOf id' st' =
    statusOf id' (step smallAngle pendingStore (ClickDispatch 1700000000000)).
Proof.
  eapply (updateStatus_then_lookup smallAngle 1700000000000 "PENDING"
            (step smallAngle pendingStore (ClickDispatch 1700000000000))).
  vm_compute. reflexivity.
Defined.

Lemma findReport_app_none (id : Z) (rs l : list Report.t) :
  findReport id rs = None -> findReport id (rs ++ l) = findReport id l.
Proof.
  unfold findReport. induction rs as [|x rs IH]; cbn; [reflexivity|].
  destruct (Report.id x =? id)%Z; [discriminate | exact IH].
Qed.

(** A successful [submitReport] adds one PENDING report under the id [now]
    at the end of the store.  A lookup by that id finds it when the id is
    new; when a report with the same id is stored already, the lookup
    still finds the old one. *)
Theorem submitReport_then_lookup (now : Z) (time : string) (st : State) :
  String.eqb (selectedSeverityLevel st) "" = false ->
  let st' := snd (submitReport now time st) in
  exists r,
    reports (appState st') = reports (appState st) ++ [r] /\
    Report.id r = now /\
    Report.status r = "PENDING"%string /\
    findReport now (reports (appState st')) =
      match findReport now (reports (appState st)) with
      | Some old => Some old
      | None => Some r
      end.
Proof.
  intros H st'. subst st'. rewrite (submitReport_accepted now time st H).
  eexists. cbn [snd appState setBrowser setAppState reports setReports].
  split; [reflexivity|]. split; [reflexivity|]. split; [reflexivity|].
  destruct (findReport now (reports (appState st))) as [old|] eqn:Hf.
  - now apply findReport_app.
  - rewrite findReport_app_none by exact Hf.
    unfold findReport. cbn. now rewrite Z.eqb_refl.
Qed.

Lemma submitReport_then_lookup_witness :
  let st := setSelectedSeverityLevel "med" pendingStore in
  let st' := snd (submitReport 1700000000000 "10:07" st) in
  exists r,
    reports (appState st') = reports (appState st) ++ [r] /\
    Report.id r = 1700000000000%Z /\
    Report.status r = "PENDING"%string /\
    findReport 1700000000000 (reports (appState st')) =
      match findReport 1700000000000 (reports (appState st)) with
      | Some old => Some old
      | None => Some r
      end.
Proof.
  apply (submitReport_then_lookup 1700000000000 "10:07"
           (setSelectedSeverityLevel "med" pendingStore)).
  vm_compute. reflexivity.
Defined.

(** ** The store, the watches and the feed along a run *)

Lemma orElse_default_truthy (v : option float) (d : float) :
  JsNum.truthy d = true -> JsNum.truthy (JsNum.orElse v d) = true.
Proof.
  intros H. destruct v as [x|]; cbn; [|exact H].
  destruct (JsNum.truthy x) eqn:E; [exact E | exact H].
Qed.

Lemma step_change (M : MathHost) (st : State) (ev : Event) :
  Change st (step M st ev).
Proof.
  destruct ev; unfold step, handle.
  all: try (apply ChNone; reflexivity).
  - unfold toggleRole, bind, gets.
    destruct (String.eqb _ _).
    + unfold modifyApp, modify. rewrite renderAdminFeed_eq.
      apply ChNone; reflexivity.
    + apply ChNone; reflexivity.
  - unfold startReport, bind, gets. destruct (geolocation _);
      apply ChNone; reflexivity.
  - unfold bind, gets. destruct (geoRequests _); apply ChNone; reflexivity.
  - unfold bind, gets. destruct (geoRequests _); apply ChNone; reflexivity.
  - unfold bind, gets. destruct (manualMarker _); apply ChNone; reflexivity.
  - unfold confirmManualLocation, bind, gets.
    destruct (manualMarker _) as [[]|]; apply ChNone; reflexivity.
  - apply ChSensorCheck; reflexivity.
  - destruct (String.eqb (selectedSeverityLevel st) "") eqn:E.
    + apply String.eqb_eq in E. rewrite submitReport_no_severity by exact E.
      apply ChNone; reflexivity.
    + rewrite submitReport_accepted by exact E.
      eapply ChSubmit; cycle 2; try reflexivity.
      unfold locationTruthy. cbn [Report.lat Report.lng Report.accuracy].
      now rewrite !orElse_default_truthy.
  - unfold bind, gets. destruct (hasDispatchButton _ _).
    + destruct (findReport id (reports (appState st))) as [r|] eqn:Hf.
      * rewrite (updateStatus_found M id _ st r Hf). cbn zeta.
        destruct (fst (renderCards M _ [])) as [[]|e];
          apply ChDispatch with id; reflexivity.
      * rewrite updateStatus_missing by exact Hf. apply ChNone; reflexivity.
    + apply ChNone; reflexivity.
  - unfold bind, gets.
    destruct (findTimer n (timers (browser st))) as [[|rid]|] eqn:Ht.
    + apply ChSensorDone with n; trivial.
    + unfold onStatusInterval, bind, gets.
      destruct (findReport rid (reports (appState st))) as [r|] eqn:Hf.
      * destruct (String.eqb (Report.status r) "DISPATCHED") eqn:Hs.
        -- unfold modifyBrowser, modify. cbn [browser setBrowser].
           cbn [stepDispatchedGray setDispatchedShown].
           destruct (stepDispatchedGray (browser st)) eqn:Hg;
             [apply ChNotify with n rid | apply ChRenotify with n rid];
             trivial.
        -- apply ChNone; reflexivity.
      * apply ChNone; reflexivity.
    + apply ChNone; reflexivity.
Qed.

Lemma change_store (st st' : State) :
  Change st st' ->
  store st' = store st \/
  (exists r, store st' = store st ++ [r]) \/
  (exists id, store st' = writeStatus id "DISPATCHED" (store st)).
Proof.
  intros [Hs _ _ _ | r _ _ Hs _ _ _ | Hs _ _ _ | id Hs _ _ _ | n _ Hs _ _ _
         | n rid _ Hs _ _ _ _ | n rid _ Hs _ _ _ _];
    eauto.
Qed.

(** The store only grows at its end: along any run the reports already
    stored stay where they are and keep every field but the status. *)
Theorem store_append_only (M : MathHost) (evs : list Event) (st : State) :
  exists l,
    map eraseStatus (store (run M evs st)) = map eraseStatus (store st) ++ l.
Proof.
  unfold run. revert st. induction evs as [|ev evs IH]; intros st.
  - exists []. now rewrite app_nil_r.
  - cbn [fold_left]. destruct (IH (step M st ev)) as [l Hl]. rewrite Hl.
    destruct (change_store _ _ (step_change M st ev))
      as [-> | [[r ->] | [id ->]]].
    + now exists l.
    + exists (eraseStatus r :: l). rewrite map_app, <- app_assoc. reflexivity.
    + exists l. now rewrite writeStatus_eraseStatus.
Qed.

Lemma writeStatus_map_id (id : Z) (s : string) (rs : list Report.t) :
  map Report.id (writeStatus id s rs) = map Report.id rs.
Proof.
  induction rs as [|r rs IH]; [reflexivity|].
  cbn. destruct (Report.id r =? id)%Z; cbn; [reflexivity | now rewrite IH].
Qed.

Lemma writeStatus_hit_prefix (id : Z) (s : string) (pre l : list Report.t) :
  In id (map Report.id pre) ->
  writeStatus id s (pre ++ l) = writeStatus id s pre ++ l.
Proof.
  induction pre as [|p pre IH]; [intros []|].
  cbn. destruct (Report.id p =? id)%Z eqn:E; [reflexivity|].
  intros [H|H]; [apply Z.eqb_neq in E; contradiction|]. now rewrite IH.
Qed.

Lemma writeStatus_pass (id : Z) (s : string) (pre post : list Report.t)
    (r : Report.t) :
  Report.id r <> id ->
  exists pre' post',
    writeStatus id s (pre ++ r :: post) = pre' ++ r :: post' /\
    map Report.id pre' = map Report.id pre.
Proof.
  intros Hne. induction pre as [|p pre (pre' & post' & He & Hi)].
  - cbn. apply Z.eqb_neq in Hne. rewrite Hne.
    now exists [], (writeStatus id s post).
  - cbn. destruct (Report.id p =? id)%Z.
    + now exists (Report.setStatus s p :: pre), post.
    + exists (p :: pre'), post'. cbn. now rewrite He, Hi.
Qed.

(** A report stored behind another with the same id is out of reach: no
    sequence of events changes it, so it is PENDING for good. *)
Theorem shadowed_report_is_never_updated
    (M : MathHost) (evs : list Event) (st : State)
    (pre post : list Report.t) (r : Report.t) :
  store st = pre ++ r :: post ->
  In (Report.id r) (map Report.id pre) ->
  exists pre' post',
    store (run M evs st) = pre' ++ r :: post' /\
    map Report.id pre' = map Report.id pre.
Proof.
  unfold run. revert st pre post.
  induction evs as [|ev evs IH]; intros st pre post Hs Hin.
  - now exists pre, post.
  - cbn [fold_left].
    assert (H : exists pre' post',
               store (step M st ev) = pre' ++ r :: post' /\
               map Report.id pre' = map Report.id pre).
    { destruct (change_store _ _ (step_change M st ev))
        as [-> | [[x ->] | [id ->]]]; rewrite Hs.
      - now exists pre, post.
      - exists pre, (post ++ [x]). now rewrite <- app_assoc.
      - destruct (Z.eq_dec (Report.id r) id) as [<-|Hne].
        + rewrite writeStatus_hit_prefix by exact Hin.
          exists (writeStatus (Report.id r) "DISPATCHED" pre), post.
          split; [reflexivity | apply writeStatus_map_id].
        + now apply writeStatus_pass. }
    destruct H as (pre1 & post1 & Hs1 & Hi1).
    destruct (IH _ pre1 post1 Hs1) as (pre2 & post2 & Hs2 & Hi2).
    + now rewrite Hi1.
    + exists pre2, post2. split; [exact Hs2 | congruence].
Qed.

Lemma shadowed_report_is_never_updated_witness :
  exists pre' post',
    store (run smallAngle
             [ClickDispatch 1700000000000; ClickDispatch 1700000000000;
              ToggleRole; ToggleRole; ClickDispatch 1700000000000]
             twinStore) = pre' ++ twinSecond :: post' /\
    map Report.id pre' = map Report.id [twinFirst].
Proof.
  apply (shadowed_report_is_never_updated smallAngle _ twinStore
           [twinFirst] [] twinSecond).
  - vm_compute. reflexivity.
  - left. reflexivity.
Defined.








Lemma change_grayInv (st st' : State) :
  Change st st' -> GrayInv st -> GrayInv st'.
Proof.
  unfold GrayInv.
  intros [_ _ Hsh Hg | r _ _ _ _ Hsh Hg | _ _ Hsh Hg | id _ _ Hsh Hg
         | n _ _ _ Hsh Hg | n rid _ _ _ Hsh _ Hg | n rid _ _ _ Hsh _ Hg] [H1 H2];
    rewrite Hsh, Hg; try (split; assumption).
  all: split; [discriminate|]; intros _ E;
    now destruct (app_eq_nil _ _ E).
Qed.

Lemma run_grayInv (M : MathHost) (evs : list Event) :
  GrayInv (run M evs initialState).
Proof.
  assert (H : forall st, GrayInv st -> GrayInv (run M evs st)).
  { unfold run. induction evs as [|ev evs IH]; intros st Hst; [exact Hst|].
    cbn [fold_left]. apply IH.
    apply (change_grayInv st); [apply step_change | exact Hst]. }
  apply H. split; [reflexivity | discriminate].
Qed.


Lemma renderCards_current (M : MathHost) (all rs : list Report.t) :
  incl rs all ->
  forall feed,
    Forall (cardCurrent all) feed ->
    Forall (cardCurrent all) (snd (renderCards M rs feed)).
Proof.
  induction rs as [|r rs IH]; intros Hincl feed Hfeed; [exact Hfeed|].
  cbn [renderCards].
  destruct (findNearestSite M evacuationSites (Report.lat r) (Report.lng r));
    [|exact Hfeed].
  apply IH.
  - intros x Hx. apply Hincl. now right.
  - apply Forall_app. split; [exact Hfeed|].
    constructor; [|constructor]. split; [|reflexivity].
    apply Hincl. now left.
Qed.

Lemma sortedReports_incl (rs : list Report.t) : incl (sortedReports rs) rs.
Proof.
  intros x Hx. rewrite sortedReports_classes in Hx.
  apply Permutation_in with (2 := Hx). symmetry. apply classes_permutation.
Qed.

Lemma rendered_feed_current (M : MathHost) (rs : list Report.t) :
  Forall (cardCurrent rs) (snd (renderCards M (sortedReports rs) [])).
Proof.
  apply renderCards_current; [apply sortedReports_incl | constructor].
Qed.

Lemma step_feed (M : MathHost) (st : State) (ev : Event) :
  (adminFeed (browser (step M st ev)) = adminFeed (browser st) /\
   exists l, store (step M st ev) = store st ++ l) \/
  adminFeed (browser (step M st ev)) =
    snd (renderCards M (sortedReports (store (step M st ev))) []).
Proof.
  assert (Hkeep : forall st', adminFeed (browser st') = adminFeed (browser st) ->
                          store st' = store st ->
                          adminFeed (browser st') = adminFeed (browser st) /\
                          exists l, store st' = store st ++ l).
  { intros st' Hf Hs. split; [exact Hf|]. exists []. now rewrite app_nil_r. }
  destruct ev; unfold step, handle.
  all: try (left; apply Hkeep; reflexivity).
  - unfold toggleRole, bind, gets.
    destruct (String.eqb _ _).
    + unfold modifyApp, modify. rewrite renderAdminFeed_eq. right. reflexivity.
    + left; apply Hkeep; reflexivity.
  - unfold startReport, bind, gets. destruct (geolocation _);
      left; apply Hkeep; reflexivity.
  - unfold bind, gets. destruct (geoRequests _); left; apply Hkeep; reflexivity.
  - unfold bind, gets. destruct (geoRequests _); left; apply Hkeep; reflexivity.
  - unfold bind, gets. destruct (manualMarker _); left; apply Hkeep; reflexivity.
  - unfold confirmManualLocation, bind, gets.
    destruct (manualMarker _) as [[]|]; left; apply Hkeep; reflexivity.
  - destruct (String.eqb (selectedSeverityLevel st) "") eqn:E.
    + apply String.eqb_eq in E. rewrite submitReport_no_severity by exact E.
      left; apply Hkeep; reflexivity.
    + rewrite submitReport_accepted by exact E.
      left. split; [reflexivity|]. eexists. reflexivity.
  - unfold bind, gets. destruct (hasDispatchButton _ _).
    + destruct (findReport id (reports (appState st))) as [r|] eqn:Hf.
      * rewrite (updateStatus_found M id _ st r Hf). cbn zeta. right.
        destruct (fst (renderCards M _ [])) as [[]|e]; reflexivity.
      * rewrite updateStatus_missing by exact Hf.
        left; apply Hkeep; reflexivity.
    + left; apply Hkeep; reflexivity.
  - unfold bind, gets.
    destruct (findTimer n (timers (browser st))) as [[|rid]|] eqn:Ht.
    + left; apply Hkeep; reflexivity.
    + unfold onStatusInterval, bind, gets.
      destruct (findReport rid (reports (appState st))) as [r|] eqn:Hf.
      * destruct (String.eqb (Report.status r) "DISPATCHED") eqn:Hs;
          [unfold modifyBrowser, modify; cbn [browser setBrowser];
           cbn [stepDispatchedGray setDispatchedShown];
           destruct (stepDispatchedGray (browser st))|];
          left; apply Hkeep; reflexivity.
      * left; apply Hkeep; reflexivity.
    + left; apply Hkeep; reflexivity.
Qed.

Lemma run_feed_current (M : MathHost) (evs : list Event) :
  Forall (cardCurrent (store (run M evs initialState)))
    (adminFeed (browser (run M evs initialState))).
Proof.
  assert (G : forall st, Forall (cardCurrent (store st)) (adminFeed (browser st)) ->
                Forall (cardCurrent (store (run M evs st)))
                  (adminFeed (browser (run M evs st)))).
  { unfold run. induction evs as [|ev evs IH]; intros st Hst; [exact Hst|].
    cbn [fold_left]. apply IH.
    destruct (step_feed M st ev) as [[-> [l ->]] | ->].
    - eapply Forall_impl; [|exact Hst]. intros c [Hin Hb].
      split; [|exact Hb]. apply in_or_app. now left.
    - apply rendered_feed_current. }
  apply G. constructor.
Qed.

Lemma dispatch_button_report (rs : list Report.t) (c : Card) (id : Z) :
  cardCurrent rs c -> actionButton c = DispatchTeam id ->
  In (cardReport c) rs /\
  Report.id (cardReport c) = id /\
  Report.status (cardReport c) = "PENDING"%string.
Proof.
  intros [Hin Hb] Hid. split; [exact Hin|].
  rewrite Hb in Hid. unfold actionButtonOf in Hid.
  destruct (String.eqb (Report.status (cardReport c)) "PENDING") eqn:E.
  - apply String.eqb_eq in E. split; [congruence | exact E].
  - destruct (String.eqb (Report.status (cardReport c)) "DISPATCHED");
      discriminate.
Qed.

(** The admin feed is never stale: in every run from the initial state
    each card shows a report exactly as the store holds it now, with the
    button that goes with its status; so a DISPATCH TEAM button is only
    on a card whose report is stored as PENDING. *)
Theorem feed_cards_are_current (M : MathHost) (evs : list Event) :
  let st := run M evs initialState in
  Forall (cardCurrent (store st)) (adminFeed (browser st)) /\
  Forall (fun c =>
            forall id, actionButton c = DispatchTeam id ->
              In (cardReport c) (store st) /\
              Report.id (cardReport c) = id /\
              Report.status (cardReport c) = "PENDING"%string)
         (adminFeed (browser st)).
Proof.
  cbn zeta. pose proof (run_feed_current M evs) as H.
  split; [exact H|].
  eapply Forall_impl; [|exact H]. intros c Hc id Hid.
  now apply dispatch_button_report.
Qed.

(** ** The form variables along a run *)

Lemma step_form_state (M : MathHost) (st : State) (ev : Event) :
  selectedSeverityLevel (step M st ev) =
    match ev with
    | SelectSeverity level => level
    | _ => selectedSeverityLevel st
    end /\
  currentVerificationMode (step M st ev) =
    match ev with
    | SetVerificationMode mode => mode
    | _ => currentVerificationMode st
    end /\
  sensorVerified (step M st ev) =
    sensorVerified st ||
    match ev with
    | TimerFires n =>
        match findTimer n (watches st) with
        | Some SensorTimeout => true
        | _ => false
        end
    | _ => false
    end.
Proof.
  destruct ev; unfold step, handle, watches.
  all: try (cbn; rewrite orb_false_r; repeat split; reflexivity).
  - unfold toggleRole, bind, gets.
    destruct (String.eqb _ _).
    + unfold modifyApp, modify. rewrite renderAdminFeed_eq.
      cbn; rewrite orb_false_r; repeat split; reflexivity.
    + cbn; rewrite orb_false_r; repeat split; reflexivity.
  - unfold startReport, bind, gets. destruct (geolocation _);
      cbn; rewrite orb_false_r; repeat split; reflexivity.
  - unfold bind, gets. destruct (geoRequests _);
      cbn; rewrite orb_false_r; repeat split; reflexivity.
  - unfold bind, gets. destruct (geoRequests _);
      cbn; rewrite orb_false_r; repeat split; reflexivity.
  - unfold bind, gets. destruct (manualMarker _);
      cbn; rewrite orb_false_r; repeat split; reflexivity.
  - unfold confirmManualLocation, bind, gets.
    destruct (manualMarker _) as [[]|];
      cbn; rewrite orb_false_r; repeat split; reflexivity.
  - destruct (String.eqb (selectedSeverityLevel st) "") eqn:E.
    + apply String.eqb_eq in E. rewrite submitReport_no_severity by exact E.
      cbn; rewrite orb_false_r; repeat split; reflexivity.
    + rewrite submitReport_accepted by exact E.
      cbn; rewrite orb_false_r; repeat split; reflexivity.
  - unfold bind, gets. destruct (hasDispatchButton _ _).
    + destruct (updateStatus_state M id "DISPATCHED" st)
        as (rs & feed & al & _ & ->).
      cbn; rewrite orb_false_r; repeat split; reflexivity.
    + cbn; rewrite orb_false_r; repeat split; reflexivity.
  - unfold bind, gets.
    destruct (findTimer n (timers (browser st))) as [[|rid]|] eqn:Ht.
    + cbn. rewrite orb_true_r. repeat split; reflexivity.
    + unfold onStatusInterval, bind, gets.
      destruct (findReport rid (reports (appState st))) as [r|] eqn:Hf.
      * destruct (String.eqb (Report.status r) "DISPATCHED") eqn:Hs;
          [unfold modifyBrowser, modify; cbn [browser setBrowser];
           cbn [stepDispatchedGray setDispatchedShown];
           destruct (stepDispatchedGray (browser st))|];
          cbn; rewrite orb_false_r; repeat split; reflexivity.
      * cbn; rewrite orb_false_r; repeat split; reflexivity.
    + cbn; rewrite orb_false_r; repeat split; reflexivity.
Qed.

(** Nothing resets the form: along any run the selected severity changes
    only by [selectSeverity], the verification mode only by
    [setVerificationMode], and once the sensor check has completed
    [sensorVerified] stays true, through submissions, cancellations and
    new reports. *)
Theorem form_state_survives (M : MathHost) (evs : list Event) (st : State) :
  (forallb (fun ev => negb (isSelectSeverity ev)) evs = true ->
   selectedSeverityLevel (run M evs st) = selectedSeverityLevel st) /\
  (forallb (fun ev => negb (isSetVerificationMode ev)) evs = true ->
   currentVerificationMode (run M evs st) = currentVerificationMode st) /\
  (sensorVerified st = true -> sensorVerified (run M evs st) = true).
Proof.
  unfold run. revert st. induction evs as [|ev evs IH]; intros st.
  - repeat split; trivial.
  - cbn [fold_left forallb].
    destruct (IH (step M st ev)) as (IH1 & IH2 & IH3).
    destruct (step_form_state M st ev) as (H1 & H2 & H3).
    repeat split.
    + intros H. apply andb_prop in H as [Hev Hevs].
      rewrite IH1, H1 by exact Hevs. now destruct ev.
    + intros H. apply andb_prop in H as [Hev Hevs].
      rewrite IH2, H2 by exact Hevs. now destruct ev.
    + intros H. apply IH3. rewrite H3, H. reflexivity.
Qed.

Lemma form_state_survives_witness :
  let evs :=
    [SubmitReport 1700000000000 "10:00"; CancelReport; StartReport;
     ToggleRole; ClickDispatch 1700000000000; ToggleRole;
     TimerFires 1; SubmitReport 1700000300000 "10:05"] in
  selectedSeverityLevel (run smallAngle evs sensorCheckedForm) =
    selectedSeverityLevel sensorCheckedForm /\
  currentVerificationMode (run smallAngle evs sensorCheckedForm) =
    currentVerificationMode sensorCheckedForm /\
  sensorVerified (run smallAngle evs sensorCheckedForm) = true.
Proof.
  cbv zeta.
  destruct (form_state_survives smallAngle
              [SubmitReport 1700000000000 "10:00"; CancelReport; StartReport;
               ToggleRole; ClickDispatch 1700000000000; ToggleRole;
               TimerFires 1; SubmitReport 1700000300000 "10:05"]
              sensorCheckedForm) as (H1 & H2 & H3).
  split; [|split]; [apply H1 | apply H2 | apply H3]; vm_compute; reflexivity.
Defined.

(** ** The location badge *)







(** ** The picker and the stored location *)

(** Confirming the picker right after opening it stores the point the
    picker was centred on, the current location or else (12.8797, 121.774),
    with accuracy 0; after dragging it stores the dragged point. *)
Theorem picker_confirm_stores_marker
    (M : MathHost) (st : State) (la lo : float) :
  location (run M [OpenManualLocationPicker; ConfirmManualLocation] st) =
    (Some (JsNum.orElse (currentUserLat (appState st)) 12.8797),
     Some (JsNum.orElse (currentUserLng (appState st)) 121.774),
     Some 0) /\
  location (run M [OpenManualLocationPicker; DragMarker la lo;
                   ConfirmManualLocation] st) =
    (Some la, Some lo, Some 0).
Proof.
  split; reflexivity.
Qed.

Lemma step_marker_location (M : MathHost) (st : State) (ev : Event) :
  (isOpenPicker ev = false -> manualMarker st = None ->
   manualMarker (step M st ev) = None) /\
  (writesLocation ev = false -> location (step M st ev) = location st).
Proof.
  destruct ev; unfold step, handle.
  all: try (split; [intros _ Hm; exact Hm | intros _; reflexivity]).
  all: try (split; [discriminate | intros _; reflexivity]).
  - unfold toggleRole, bind, gets.
    destruct (String.eqb _ _).
    + unfold modifyApp, modify. rewrite renderAdminFeed_eq.
      split; [intros _ Hm; exact Hm | intros _; reflexivity].
    + split; [intros _ Hm; exact Hm | intros _; reflexivity].
  - unfold startReport, bind, gets. destruct (geolocation _);
      (split; [intros _ Hm; exact Hm | intros _; reflexivity]).
  - split; [|discriminate]. intros _ Hm.
    unfold bind, gets. destruct (geoRequests _); exact Hm.
  - unfold bind, gets. destruct (geoRequests _);
      (split; [intros _ Hm; exact Hm | intros _; reflexivity]).
  - split; [|intros _]; unfold bind, gets.
    + intros _ Hm. rewrite Hm. exact Hm.
    + destruct (manualMarker st); reflexivity.
  - split; [|discriminate]. intros _ Hm.
    unfold confirmManualLocation, bind, gets. rewrite Hm. exact Hm.
  - destruct (String.eqb (selectedSeverityLevel st) "") eqn:E.
    + apply String.eqb_eq in E. rewrite submitReport_no_severity by exact E.
      split; [intros _ Hm; exact Hm | intros _; reflexivity].
    + rewrite submitReport_accepted by exact E.
      split; [intros _ Hm; exact Hm | intros _; reflexivity].
  - unfold bind, gets. destruct (hasDispatchButton _ _).
    + destruct (updateStatus_state M id "DISPATCHED" st)
        as (rs & feed & al & _ & ->).
      split; [intros _ Hm; exact Hm | intros _; reflexivity].
    + split; [intros _ Hm; exact Hm | intros _; reflexivity].
  - unfold bind, gets.
    destruct (findTimer n (timers (browser st))) as [[|rid]|] eqn:Ht.
    + split; [intros _ Hm; exact Hm | intros _; reflexivity].
    + unfold onStatusInterval, bind, gets.
      destruct (findReport rid (reports (appState st))) as [r|] eqn:Hf.
      * destruct (String.eqb (Report.status r) "DISPATCHED") eqn:Hs;
          [unfold modifyBrowser, modify; cbn [browser setBrowser];
           cbn [stepDispatchedGray setDispatchedShown];
           destruct (stepDispatchedGray (browser st))|];
          (split; [intros _ Hm; exact Hm | intros _; reflexivity]).
      * split; [intros _ Hm; exact Hm | intros _; reflexivity].
    + split; [intros _ Hm; exact Hm | intros _; reflexivity].
Qed.

(** Until the picker has been opened there is no marker, and
    [confirmManualLocation] throws a TypeError and leaves the state as it
    is. *)
Theorem confirm_before_open_throws (M : MathHost) (evs : list Event) :
  forallb (fun ev => negb (isOpenPicker ev)) evs = true ->
  confirmManualLocation (run M evs initialState) =
  (Throw TypeError, run M evs initialState).
Proof.
  intros H.
  assert (Hm : manualMarker (run M evs initialState) = None).
  { assert (G : forall st, manualMarker st = None ->
                           manualMarker (run M evs st) = None).
    { unfold run. induction evs as [|ev evs IH]; intros st Hst; [exact Hst|].
      cbn [fold_left forallb] in *. apply andb_prop in H as [Hev Hevs].
      apply IH; [exact Hevs|].
      apply (proj1 (step_marker_location M st ev)); [|exact Hst].
      now apply negb_true_iff. }
    now apply G. }
  unfold confirmManualLocation, bind, gets. now rewrite Hm.
Qed.

Lemma confirm_before_open_throws_witness :
  let evs := [StartReport; GeoError; SelectSeverity "low"; DragMarker 14.7 121.1] in
  confirmManualLocation (run smallAngle evs initialState) =
  (Throw TypeError, run smallAngle evs initialState).
Proof.
  apply (confirm_before_open_throws smallAngle
           [StartReport; GeoError; SelectSeverity "low"; DragMarker 14.7 121.1]).
  vm_compute. reflexivity.
Defined.

(** The stored location is written by a position fix and by a manual
    confirmation only: submitting, cancelling, starting another report,
    dispatching and timers leave it as it is. *)
Theorem location_survives (M : MathHost) (evs : list Event) (st : State) :
  forallb (fun ev => negb (writesLocation ev)) evs = true ->
  location (run M evs st) = location st.
Proof.
  unfold run. revert st. induction evs as [|ev evs IH]; intros st H;
    [reflexivity|].
  cbn [fold_left forallb] in *. apply andb_prop in H as [Hev Hevs].
  rewrite IH by exact Hevs.
  apply (proj2 (step_marker_location M st ev)). now apply negb_true_iff.
Qed.

Lemma location_survives_witness :
  let st := run smallAngle [StartReport; GeoSuccess 14.61 121.02 35;
                            SelectSeverity "med"] initialState in
  let evs := [SubmitReport 1700000000000 "10:00"; CancelReport; StartReport;
              GeoError; OpenManualLocationPicker; DragMarker 14.7 121.1;
              ToggleRole; ClickDispatch 1700000000000; TimerFires 0] in
  location (run smallAngle evs st) = location st.
Proof.
  apply (location_survives smallAngle
           [SubmitReport 1700000000000 "10:00"; CancelReport; StartReport;
            GeoError; OpenManualLocationPicker; DragMarker 14.7 121.1;
            ToggleRole; ClickDispatch 1700000000000; TimerFires 0]).
  vm_compute. reflexivity.
Defined.

(** ** Roles and the route view *)

Lemma step_currentView (M : MathHost) (st : State) (ev : Event) :
  currentView (appState (step M st ev)) =
  match ev with
  | ToggleRole =>
      if String.eqb (currentView (appState st)) "user" then "admin"%string
      else "user"%string
  | _ => currentView (appState st)
  end.
Proof.
  destruct ev; unfold step, handle.
  all: try reflexivity.
  - unfold toggleRole, bind, gets.
    destruct (String.eqb _ _).
    + unfold modifyApp, modify. rewrite renderAdminFeed_eq. reflexivity.
    + reflexivity.
  - unfold startReport, bind, gets. destruct (geolocation _); reflexivity.
  - unfold bind, gets. destruct (geoRequests _); reflexivity.
  - unfold bind, gets. destruct (geoRequests _); reflexivity.
  - unfold bind, gets. destruct (manualMarker _); reflexivity.
  - unfold confirmManualLocation, bind, gets.
    destruct (manualMarker _) as [[]|]; reflexivity.
  - destruct (String.eqb (selectedSeverityLevel st) "") eqn:E.
    + apply String.eqb_eq in E. now rewrite submitReport_no_severity.
    + now rewrite submitReport_accepted.
  - unfold bind, gets. destruct (hasDispatchButton _ _); [|reflexivity].
    destruct (updateStatus_state M id "DISPATCHED" st)
      as (rs & feed & al & _ & ->). reflexivity.
  - unfold bind, gets.
    destruct (findTimer n (timers (browser st))) as [[|rid]|] eqn:Ht;
      try reflexivity.
    unfold onStatusInterval, bind, gets.
    destruct (findReport rid (reports (appState st))) as [r|] eqn:Hf;
      [|reflexivity].
    destruct (String.eqb (Report.status r) "DISPATCHED");
      [unfold modifyBrowser, modify; cbn [browser setBrowser];
       cbn [stepDispatchedGray setDispatchedShown];
       destruct (stepDispatchedGray (browser st))|]; reflexivity.
Qed.

(** The view is "user" or "admin" at all times, only [toggleRole] changes
    it, and it flips it even when rendering the feed throws. *)
Theorem currentView_flips (M : MathHost) (evs : list Event) :
  let st := run M evs initialState in
  (currentView (appState st) = "user"%string /\
   currentView (appState (step M st ToggleRole)) = "admin"%string) \/
  (currentView (appState st) = "admin"%string /\
   currentView (appState (step M st ToggleRole)) = "user"%string).
Proof.
  cbn zeta.
  assert (H : currentView (appState (run M evs initialState)) = "user"%string \/
              currentView (appState (run M evs initialState)) = "admin"%string).
  { assert (G : forall st,
               currentView (appState st) = "user"%string \/
               currentView (appState st) = "admin"%string ->
               currentView (appState (run M evs st)) = "user"%string \/
               currentView (appState (run M evs st)) = "admin"%string).
    { unfold run. induction evs as [|ev evs IH]; intros st Hst; [exact Hst|].
      cbn [fold_left]. apply IH. rewrite step_currentView.
      destruct ev; trivial. destruct Hst as [-> | ->]; [now right | now left]. }
    apply G. now left. }
  rewrite step_currentView. destruct H as [-> | ->]; [left | right]; now split.
Qed.

Lemma viewRoute_state (st : State) :
  snd (viewRoute st) = st \/
  snd (viewRoute st) =
    alerted "Geolocation is not supported by this browser." st.
Proof.
  unfold viewRoute, bind, gets.
  destruct (currentUserLat (appState st)) as [la|],
           (currentUserLng (appState st)) as [lo|];
    try destruct (JsNum.truthy la && JsNum.truthy lo);
    try destruct (geolocation (browser st)); auto.
Qed.

Lemma viewRoute_fst (st : State) :
  fst (viewRoute st) =
  Normal
    match currentUserLat (appState st), currentUserLng (appState st) with
    | Some la, Some lo =>
        if JsNum.truthy la && JsNum.truthy lo then Navigate la lo
        else if geolocation (browser st) then RequestPosition else NoRoute
    | _, _ => if geolocation (browser st) then RequestPosition else NoRoute
    end.
Proof.
  unfold viewRoute, bind, gets.
  destruct (currentUserLat (appState st)) as [la|],
           (currentUserLng (appState st)) as [lo|];
    try destruct (JsNum.truthy la && JsNum.truthy lo);
    destruct (geolocation (browser st)); reflexivity.
Qed.

(** [viewRoute] goes straight to the evacuation page exactly when both
    stored coordinates are truthy, and then for exactly those coordinates
    and without touching the state; when it does not, it asks the
    geolocation service and leaves the state as it is, or, without
    geolocation, alerts that it is not supported and does nothing else.
    It never throws. *)
Theorem viewRoute_navigates_iff (st : State) (la lo : float) :
  (fst (viewRoute st) = Normal (Navigate la lo) <->
   currentUserLat (appState st) = Some la /\
   currentUserLng (appState st) = Some lo /\
   JsNum.truthy la && JsNum.truthy lo = true) /\
  (fst (viewRoute st) = Normal (Navigate la lo) -> snd (viewRoute st) = st) /\
  ((forall la' lo', fst (viewRoute st) <> Normal (Navigate la' lo')) ->
   viewRoute st =
     if geolocation (browser st) then (Normal RequestPosition, st)
     else (Normal NoRoute,
           alerted "Geolocation is not supported by this browser." st)) /\
  (exists a, fst (viewRoute st) = Normal a) /\
  appState (snd (viewRoute st)) = appState st /\
  timers (browser (snd (viewRoute st))) = timers (browser st) /\
  geoRequests (browser (snd (viewRoute st))) = geoRequests (browser st).
Proof.
  split; [|split; [|split; [|split]]].
  - rewrite viewRoute_fst. split.
    + intros H.
      destruct (currentUserLat (appState st)) as [la'|];
        [|destruct (geolocation (browser st)); discriminate H].
      destruct (currentUserLng (appState st)) as [lo'|];
        [|destruct (geolocation (browser st)); discriminate H].
      destruct (JsNum.truthy la' && JsNum.truthy lo') eqn:E;
        [|destruct (geolocation (browser st)); discriminate H].
      injection H as -> ->. now repeat split.
    + intros (-> & -> & ->). reflexivity.
  - unfold viewRoute, bind, gets.
    destruct (currentUserLat (appState st)) as [la'|],
             (currentUserLng (appState st)) as [lo'|];
      try destruct (JsNum.truthy la' && JsNum.truthy lo');
      destruct (geolocation (browser st)); cbn; intros H;
      try reflexivity; discriminate H.
  - unfold viewRoute, bind, gets.
    destruct (currentUserLat (appState st)) as [la'|],
             (currentUserLng (appState st)) as [lo'|];
      try destruct (JsNum.truthy la' && JsNum.truthy lo');
      destruct (geolocation (browser st)); cbn; intros H;
      try reflexivity; now destruct (H la' lo').
  - rewrite viewRoute_fst. eauto.
  - destruct (viewRoute_state st) as [-> | ->]; repeat split.
Qed.

Lemma viewRoute_navigates_iff_witness :
  let st := zeroLatitudeState in
  location st = (Some 0, Some 121.01, Some 12) /\
  viewRoute st = (Normal RequestPosition, st).
Proof.
  split; [vm_compute; reflexivity|].
  apply (proj1 (proj2 (proj2 (viewRoute_navigates_iff zeroLatitudeState 0 0)))).
  intros la' lo' H. vm_compute in H. discriminate H.
Defined.

(** When [viewRoute] navigates, it is to the coordinates a report
    submitted in the same state carries. *)
Theorem viewRoute_agrees_with_report
    (now : Z) (time : string) (st : State) (la lo : float) :
  fst (viewRoute st) = Normal (Navigate la lo) ->
  String.eqb (selectedSeverityLevel st) "" = false ->
  exists r,
    store (snd (submitReport now time st)) = store st ++ [r] /\
    Report.lat r = la /\ Report.lng r = lo.
Proof.
  intros Hv Hs. rewrite (submitReport_accepted now time st Hs).
  eexists. split; [reflexivity|]. cbn [Report.lat Report.lng].
  rewrite viewRoute_fst in Hv.
  destruct (currentUserLat (appState st)) as [la'|];
    [|destruct (geolocation (browser st)); discriminate Hv].
  destruct (currentUserLng (appState st)) as [lo'|];
    [|destruct (geolocation (browser st)); discriminate Hv].
  destruct (JsNum.truthy la' && JsNum.truthy lo') eqn:E;
    [|destruct (geolocation (browser st)); discriminate Hv].
  injection Hv as -> ->. apply andb_prop in E as [E1 E2].
  now rewrite !orElse_truthy.
Qed.

Lemma viewRoute_agrees_with_report_witness :
  let st := step smallAngle manualPickState ConfirmManualLocation in
  exists r,
    store (snd (submitReport 1700000000000 "10:00" st)) = store st ++ [r] /\
    Report.lat r = 14.70 /\ Report.lng r = 121.10.
Proof.
  apply (viewRoute_agrees_with_report 1700000000000 "10:00"
           (step smallAngle manualPickState ConfirmManualLocation)
           14.70 121.10).
  - vm_compute. reflexivity.
  - vm_compute. reflexivity.
Defined.

(** ** Dispatching from the feed *)

Lemma findReport_of_In (r : Report.t) (rs : list Report.t) :
  In r rs -> exists r', findReport (Report.id r) rs = Some r'.
Proof.
  unfold findReport. induction rs as [|x rs IH]; [intros []|].
  cbn. destruct (Report.id x =? Report.id r)%Z eqn:E; [eauto|].
  intros [->|H]; [now rewrite Z.eqb_refl in E | auto].
Qed.

(** Every DISPATCH TEAM button the feed shows works: in any run from the
    initial state, clicking one finds a report under its id, and after the
    click the report a lookup by that id returns is DISPATCHED. *)
Theorem dispatch_button_dispatches (M : MathHost) (evs : list Event) (id : Z) :
  let st := run M evs initialState in
  hasDispatchButton id (adminFeed (browser st)) = true ->
  (exists r, findReport id (store st) = Some r) /\
  dispatched id (step M st (ClickDispatch id)) = true.
Proof.
  cbn zeta. intros Hb.
  assert (Hf : exists r, findReport id (store (run M evs initialState)) = Some r).
  { unfold hasDispatchButton in Hb. apply existsb_exists in Hb as (c & Hc & Hid).
    pose proof (run_feed_current M evs) as H. rewrite Forall_forall in H.
    destruct (actionButton c) as [i| |] eqn:Ha; try discriminate.
    apply Z.eqb_eq in Hid. subst i.
    destruct (dispatch_button_report _ c id (H c Hc) Ha) as (Hin & <- & _).
    now apply findReport_of_In. }
  split; [exact Hf|]. destruct Hf as [r Hf].
  unfold step, handle, bind, gets. rewrite Hb.
  unfold dispatched, statusOf. cbn [snd].
  rewrite (updateStatus_store M id "DISPATCHED" _ r Hf).
  rewrite findReport_writeStatus_same. unfold store in Hf. now rewrite Hf.
Qed.

Lemma dispatch_button_dispatches_witness :
  let st := pendingStore in
  (exists r, findReport 1700000000000 (store st) = Some r) /\
  dispatched 1700000000000 (step smallAngle st (ClickDispatch 1700000000000)) = true.
Proof.
  apply (dispatch_button_dispatches smallAngle
           [SelectSeverity "high"; SubmitReport 1700000000000 "10:00"; ToggleRole]
           1700000000000).
  vm_compute. reflexivity.
Defined.

(** ** Stored locations *)

Lemma writeStatus_locationTruthy (id : Z) (s : string) (rs : list Report.t) :
  Forall (fun r => locationTruthy r = true) rs ->
  Forall (fun r => locationTruthy r = true) (writeStatus id s rs).
Proof.
  induction 1 as [|r rs Hr Hrs IH]; [constructor|].
  cbn. destruct (Report.id r =? id)%Z; constructor; trivial.
Qed.

(** No stored report ever has a latitude, longitude or accuracy that is 0
    or NaN: whatever the geolocation service or the picker delivered,
    [submitReport] puts the default in its place.  In particular the
    accuracy 0 of a manual selection never reaches the store. *)
Theorem stored_locations_are_truthy (M : MathHost) (evs : list Event) :
  Forall (fun r => locationTruthy r = true) (store (run M evs initialState)).
Proof.
  assert (G : forall st,
             Forall (fun r => locationTruthy r = true) (store st) ->
             Forall (fun r => locationTruthy r = true) (store (run M evs st))).
  { unfold run. induction evs as [|ev evs IH]; intros st Hst; [exact Hst|].
    cbn [fold_left]. apply IH.
    destruct (step_change M st ev)
      as [Hs _ _ _ | r _ Hr Hs _ _ _ | Hs _ _ _ | id Hs _ _ _ | n _ Hs _ _ _
         | n rid _ Hs _ _ _ _ | n rid _ Hs _ _ _ _]; rewrite Hs; trivial.
    - apply Forall_app. split; [exact Hst | now constructor].
    - now apply writeStatus_locationTruthy. }
  apply G. constructor.
Qed.
